(** * Whitelist audit plugin (src/whitelist_audit.py): the interview engine

    A shallow embedding of [WhitelistAuditPlugin]: the in-memory stores of
    the plugin ([audit_sessions], [auditing_game_ids], [whitelist],
    [cooldown], [audit_records], [timeout_tasks]) are fields of one state
    record, every handler is a function from a state to a state and its
    reply, and the event loop is a step function over the handlers.

    Conventions.
    - Text is [string]; one [ascii] stands for one character (a code point
      below 256), so [String.length] is Python's [len].
    - [time.time()] is a rational number of seconds ([Q]); rounding of
      floating-point additions is not modelled.  [datetime.now().isoformat()]
      is kept as the instant it formats.
    - Everything the plugin obtains from a collaborator (the AI replies,
      the RCON client, [str.format]) is an argument of the function that
      uses it.
    - Writing the JSON files ([_save_data]) and logging change nothing the
      plugin reads back during a run; they are left out.
    - User and group ids are integers; [not group_id] holds of 0.
    - [self.config] does not change during a run.  Of [handle_admin] the
      [add] branch is an event of the loop; the [remove] and [reset]
      branches are functions on the state. *)

From Stdlib Require Import ZArith QArith String Ascii List Bool Lia.
From stdpp Require Import base gmap strings list fin_maps pretty.

Local Open Scope Z_scope.
Local Open Scope string_scope.

(** ** Python text primitives *)

Module Py.

Definition code (c : ascii) : nat := nat_of_ascii c.

(** [str.isspace] on one character, for code points below 256. *)
Definition isspace (c : ascii) : bool :=
  let n := code c in
  ((9 <=? n) && (n <=? 13) || (28 <=? n) && (n <=? 32)
   || (n =? 133) || (n =? 160))%nat.

(** [\d] of the [re] module (ASCII digits are the only decimal digits
    below 256). *)
Definition isdigit (c : ascii) : bool :=
  let n := code c in ((48 <=? n) && (n <=? 57))%nat.

(** The class [[a-zA-Z0-9_]]. *)
Definition is_word_char (c : ascii) : bool :=
  let n := code c in
  ((97 <=? n) && (n <=? 122) || (65 <=? n) && (n <=? 90)
   || (48 <=? n) && (n <=? 57) || (n =? 95))%nat.

Fixpoint lstrip (s : string) : string :=
  match s with
  | EmptyString => EmptyString
  | String c s' => if isspace c then lstrip s' else s
  end.

(** [rstrip] drops the maximal suffix of whitespace: a character is kept
    when something is kept after it or when it is not whitespace. *)
Fixpoint rstrip (s : string) : string :=
  match s with
  | EmptyString => EmptyString
  | String c s' =>
      match rstrip s' with
      | EmptyString => if isspace c then EmptyString else String c EmptyString
      | r => String c r
      end
  end.

(** [s.strip()] *)
Definition strip (s : string) : string := rstrip (lstrip s).

Fixpoint all_chars (p : ascii -> bool) (s : string) : bool :=
  match s with
  | EmptyString => true
  | String c s' => p c && all_chars p s'
  end.

(** The text before a final line feed, when the text ends with one. *)
Fixpoint chop_newline (s : string) : option string :=
  match s with
  | EmptyString => None
  | String c EmptyString => if (code c =? 10)%nat then Some EmptyString else None
  | String c s' => option_map (String c) (chop_newline s')
  end.

(** [int(digits)] for a run of ASCII digits, most significant first. *)
Fixpoint int_of_digits (acc : Z) (s : string) : Z :=
  match s with
  | EmptyString => acc
  | String c s' => int_of_digits (10 * acc + (Z.of_nat (code c) - 48)) s'
  end.

Fixpoint take_digits (s : string) : string :=
  match s with
  | EmptyString => EmptyString
  | String c s' => if isdigit c then String c (take_digits s') else EmptyString
  end.

(** [re.search(r'(\d+)', s)]: the leftmost maximal run of digits. *)
Fixpoint search_digits (s : string) : option string :=
  match s with
  | EmptyString => None
  | String c s' => if isdigit c then Some (take_digits s) else search_digits s'
  end.

(** [int(x)] on a float: truncation towards zero. *)
Definition int_of_Q (q : Q) : Z := Z.quot (Qnum q) (Zpos (Qden q)).

(** [a > b] on floats. *)
Definition Qgtb (a b : Q) : bool := negb (Qle_bool a b).

(** [sub in s] *)
Definition contains (sub s : string) : bool :=
  match String.index 0 sub s with
  | Some _ => true
  | None => false
  end.

(** [str(n)] for an [int]. *)
Definition str (n : Z) : string := pretty n.

End Py.

(** ** Data model *)

(** Who wrote a whitelist entry: ["admin" if admin else "audit"]. *)
Inductive AddedBy := ByAdmin | ByAudit.

(** The values of [self.whitelist]. *)
Record WhitelistInfo := {
  w_user_id : Z;
  w_group_id : Z;
  w_added_by : AddedBy;
  w_add_time : Q
}.

(** The values of [self.audit_sessions]. *)
Record Session := {
  s_user_id : Z;
  s_game_id : string;
  s_group_id : Z;
  s_questions : list string;
  s_answers : list string;
  s_current_question_index : nat;
  s_start_time : Q;
  s_last_activity_time : Q;
  s_current_question_start_time : Q
}.

(** The elements of the lists in [self.audit_records].  [r_state] is the
    ["state"] key, present on a timeout record only:
    [Some k] stands for ["timeout_question_k"]. *)
Record AuditRecord := {
  r_user_id : Z;
  r_game_id : string;
  r_group_id : Z;
  r_questions : list string;
  r_answers : list string;
  r_score : Z;
  r_passed : bool;
  r_state : option nat;
  r_start_time : Q;
  r_end_time : Q
}.

(** The keys of [self.config] the engine reads. *)
Record Config := {
  allowed_groups : list Z;
  cooldown_seconds : Z;
  pass_score : Z;
  question_count : Z;
  answer_timeout : Z;
  max_whitelist_per_qq : Z;
  add_command : string;
  list_command : string
}.

(** An [asyncio] task running [_check_question_timeout]: its arguments,
    when it was created and whether it is still sleeping. *)
Inductive TaskStatus := Sleeping | Cancelled | Done.

Record TimeoutTask := {
  t_session_key : string;
  t_user_id : Z;
  t_group_id : Z;
  t_question_index : nat;
  t_created : Q;
  t_status : TaskStatus
}.

(** A detached [_prepare_and_send_first_question] task: its arguments and
    whether it has not run yet. *)
Record PrepareTask := {
  p_session_key : string;
  p_user_id : Z;
  p_group_id : Z;
  p_game_id : string;
  p_pending : bool
}.

(** The plugin object, and the tasks it has handed to the event loop
    ([tasks], [prepares]: a task is named by its position). *)
Record State := {
  audit_records : gmap string (list AuditRecord);
  whitelist : gmap string WhitelistInfo;
  cooldown : gmap string Q;
  audit_sessions : gmap string Session;
  timeout_tasks : gmap string nat;
  auditing_game_ids : gset string;
  tasks : list TimeoutTask;
  prepares : list PrepareTask
}.

(** The texts the plugin returns or sends, by their parameters. *)
Inductive Msg :=
| MsgNeedGroup
| MsgGroupNotAllowed
| MsgEmptyGameId
| MsgBadGameId
| MsgCooldown (hours minutes : Z)
| MsgAlreadyWhitelisted (game_id : string)
| MsgQuota (count max_allowed : Z)
| MsgBeingAudited (game_id : string)
| MsgSessionActive
| MsgReceived (game_id : string)
| MsgFetchFailed
| MsgFirstQuestion (total : Z) (question : string) (timeout_minutes : Z)
| MsgNoSession
| MsgEmptyAnswer
| MsgAnswerTooLong
| MsgAnswerTimedOut
| MsgNextQuestion (number : nat) (total : Z) (question : string) (timeout_minutes : Z)
| MsgIndexError
| MsgPassed (score total : Z) (game_id : string) (count max_allowed : Z)
| MsgPassedLocalOnly (score total : Z) (game_id : string) (count max_allowed : Z)
| MsgFailed (score total pass : Z) (hours : Z)
| MsgCompleteError
| MsgAdminAdded (game_id : string)
| MsgAdminAddedLocalOnly (game_id : string)
| MsgAt (user_id : Z) (m : Msg).

(** What a handler hands back: the value it returns to the command
    dispatcher and the messages it passes to [_send_group_message]. *)
Inductive Out :=
| Return (m : option Msg)
| Send (group_id : Z) (m : Msg).

(** A call that may raise. *)
Inductive Outcome (A : Type) :=
| Ret (a : A)
| Raise.
Arguments Ret {A} a.
Arguments Raise {A}.

(** What one request to the scoring model ends in: a reply text, a
    timeout, or any other exception (of the request, or of reading a reply
    that holds no text). *)
Inductive AiOutcome :=
| AiReply (response_text : string)
| AiTimeout
| AiError.

(** The RCON client: [is_connected()] and [execute_command(command)];
    [execute_command n c] is the [n]-th call made during one operation. *)
Record RconClient := {
  is_connected : Outcome bool;
  execute_command : nat -> string -> Outcome (option string)
}.

(** Field updates. *)
Definition set_audit_records (v : gmap string (list AuditRecord)) (st : State) : State :=
  {| audit_records := v; whitelist := whitelist st; cooldown := cooldown st;
     audit_sessions := audit_sessions st; timeout_tasks := timeout_tasks st;
     auditing_game_ids := auditing_game_ids st; tasks := tasks st;
     prepares := prepares st |}.

Definition set_whitelist (v : gmap string WhitelistInfo) (st : State) : State :=
  {| audit_records := audit_records st; whitelist := v; cooldown := cooldown st;
     audit_sessions := audit_sessions st; timeout_tasks := timeout_tasks st;
     auditing_game_ids := auditing_game_ids st; tasks := tasks st;
     prepares := prepares st |}.

Definition set_cooldown (v : gmap string Q) (st : State) : State :=
  {| audit_records := audit_records st; whitelist := whitelist st; cooldown := v;
     audit_sessions := audit_sessions st; timeout_tasks := timeout_tasks st;
     auditing_game_ids := auditing_game_ids st; tasks := tasks st;
     prepares := prepares st |}.

Definition set_audit_sessions (v : gmap string Session) (st : State) : State :=
  {| audit_records := audit_records st; whitelist := whitelist st; cooldown := cooldown st;
     audit_sessions := v; timeout_tasks := timeout_tasks st;
     auditing_game_ids := auditing_game_ids st; tasks := tasks st;
     prepares := prepares st |}.

Definition set_timeout_tasks (v : gmap string nat) (st : State) : State :=
  {| audit_records := audit_records st; whitelist := whitelist st; cooldown := cooldown st;
     audit_sessions := audit_sessions st; timeout_tasks := v;
     auditing_game_ids := auditing_game_ids st; tasks := tasks st;
     prepares := prepares st |}.

Definition set_auditing_game_ids (v : gset string) (st : State) : State :=
  {| audit_records := audit_records st; whitelist := whitelist st; cooldown := cooldown st;
     audit_sessions := audit_sessions st; timeout_tasks := timeout_tasks st;
     auditing_game_ids := v; tasks := tasks st;
     prepares := prepares st |}.

Definition set_tasks (v : list TimeoutTask) (st : State) : State :=
  {| audit_records := audit_records st; whitelist := whitelist st; cooldown := cooldown st;
     audit_sessions := audit_sessions st; timeout_tasks := timeout_tasks st;
     auditing_game_ids := auditing_game_ids st; tasks := v;
     prepares := prepares st |}.

Definition set_prepares (v : list PrepareTask) (st : State) : State :=
  {| audit_records := audit_records st; whitelist := whitelist st; cooldown := cooldown st;
     audit_sessions := audit_sessions st; timeout_tasks := timeout_tasks st;
     auditing_game_ids := auditing_game_ids st; tasks := tasks st;
     prepares := v |}.

Definition set_answers (v : list string) (s : Session) : Session :=
  {| s_user_id := s_user_id s; s_game_id := s_game_id s; s_group_id := s_group_id s;
     s_questions := s_questions s; s_answers := v;
     s_current_question_index := s_current_question_index s;
     s_start_time := s_start_time s;
     s_last_activity_time := s_last_activity_time s;
     s_current_question_start_time := s_current_question_start_time s |}.

Definition set_last_activity_time (v : Q) (s : Session) : Session :=
  {| s_user_id := s_user_id s; s_game_id := s_game_id s; s_group_id := s_group_id s;
     s_questions := s_questions s; s_answers := s_answers s;
     s_current_question_index := s_current_question_index s;
     s_start_time := s_start_time s;
     s_last_activity_time := v;
     s_current_question_start_time := s_current_question_start_time s |}.

Definition set_current_question_start_time (v : Q) (s : Session) : Session :=
  {| s_user_id := s_user_id s; s_game_id := s_game_id s; s_group_id := s_group_id s;
     s_questions := s_questions s; s_answers := s_answers s;
     s_current_question_index := s_current_question_index s;
     s_start_time := s_start_time s;
     s_last_activity_time := s_last_activity_time s;
     s_current_question_start_time := v |}.

Definition set_status (v : TaskStatus) (t : TimeoutTask) : TimeoutTask :=
  {| t_session_key := t_session_key t; t_user_id := t_user_id t;
     t_group_id := t_group_id t; t_question_index := t_question_index t;
     t_created := t_created t; t_status := v |}.

Definition set_pending (v : bool) (p : PrepareTask) : PrepareTask :=
  {| p_session_key := p_session_key p; p_user_id := p_user_id p;
     p_group_id := p_group_id p; p_game_id := p_game_id p; p_pending := v |}.

(** The plugin after [__init__]. *)
Definition init : State :=
  {| audit_records := ∅; whitelist := ∅; cooldown := ∅; audit_sessions := ∅;
     timeout_tasks := ∅; auditing_game_ids := ∅; tasks := []; prepares := [] |}.

(** ** The engine *)

Section Engine.

(** [self.config], and [template.format(player=game_id)]. *)
Variable cfg : Config.
Variable py_format : string -> string -> Outcome string.

(** [f"{user_id}_{group_id}"] *)
Definition session_key (user_id group_id : Z) : string :=
  Py.str user_id ++ "_" ++ Py.str group_id.

(** [f"{user_id}_{game_id}"] *)
Definition cooldown_key (user_id : Z) (game_id : string) : string :=
  Py.str user_id ++ "_" ++ game_id.

(** *** Data management *)

Definition _is_group_allowed (group_id : Z) : bool :=
  bool_decide (group_id ∈ allowed_groups cfg).

(** [re.match(r'^[a-zA-Z0-9_]{3,16}$', game_id)]: the token, or the token
    followed by one final line feed ([$] also matches there). *)
Definition token_3_16 (s : string) : bool :=
  Py.all_chars Py.is_word_char s
  && (3 <=? String.length s)%nat && (String.length s <=? 16)%nat.

Definition _is_valid_game_id (game_id : string) : bool :=
  token_3_16 game_id
  || match Py.chop_newline game_id with
     | Some t => token_3_16 t
     | None => false
     end.

Definition _is_in_whitelist (st : State) (game_id : string) : bool :=
  bool_decide (is_Some (whitelist st !! game_id)).

(** The loop over [self.whitelist.values()]. *)
Definition _get_user_whitelist_count (st : State) (user_id : Z) : Z :=
  map_fold (fun _ info count =>
              if decide (w_user_id info = user_id) then count + 1 else count)
           0 (whitelist st).

Definition _save_audit_record (st : State) (record : AuditRecord) : State :=
  let user_id := Py.str (r_user_id record) in
  let old := default [] (audit_records st !! user_id) in
  set_audit_records (<[user_id := (old ++ [record])%list]> (audit_records st)) st.

Definition _add_to_whitelist (now : Q) (st : State) (game_id : string)
    (user_id group_id : Z) (admin : bool) : State :=
  set_whitelist
    (<[game_id := {| w_user_id := user_id; w_group_id := group_id;
                     w_added_by := if admin then ByAdmin else ByAudit;
                     w_add_time := now |}]> (whitelist st)) st.

Definition _set_cooldown (now : Q) (st : State) (user_id : Z)
    (game_id : string) : State :=
  let key := cooldown_key user_id game_id in
  set_cooldown
    (<[key := (now + inject_Z (cooldown_seconds cfg))%Q]> (cooldown st)) st.

(** Returns the whole seconds left; an entry that is over is deleted. *)
Definition _check_cooldown (now : Q) (st : State) (user_id : Z)
    (game_id : string) : State * Z :=
  let key := cooldown_key user_id game_id in
  match cooldown st !! key with
  | Some expiry =>
      let remaining := (expiry - now)%Q in
      if Py.Qgtb remaining 0 then (st, Py.int_of_Q remaining)
      else (set_cooldown (delete key (cooldown st)) st, 0)
  | None => (st, 0)
  end.

(** *** Timeout tasks *)

(** [if session_key in self.timeout_tasks: task = ...;
     if not task.done(): task.cancel(); del self.timeout_tasks[session_key]] *)
Definition cancel_task (t : TimeoutTask) : TimeoutTask :=
  match t_status t with
  | Sleeping => set_status Cancelled t
  | _ => t
  end.

Definition cancel_timeout_task (st : State) (key : string) : State :=
  match timeout_tasks st !! key with
  | Some id =>
      set_timeout_tasks (delete key (timeout_tasks st))
        (set_tasks (alter cancel_task id (tasks st)) st)
  | None => st
  end.

(** [timeout_task = asyncio.create_task(self._check_question_timeout(
     session_key, user_id, group_id, index));
     self.timeout_tasks[session_key] = timeout_task] *)
Definition start_timeout_task (now : Q) (st : State) (key : string)
    (user_id group_id : Z) (index : nat) : State :=
  let id := length (tasks st) in
  set_timeout_tasks (<[key := id]> (timeout_tasks st))
    (set_tasks (tasks st ++ [{| t_session_key := key; t_user_id := user_id;
                                t_group_id := group_id;
                                t_question_index := index;
                                t_created := now;
                                t_status := Sleeping |}])%list st).

(** [if game_id in self.auditing_game_ids:
     self.auditing_game_ids.remove(game_id)] *)
Definition release_game_id (st : State) (game_id : string) : State :=
  if decide (game_id ∈ auditing_game_ids st)
  then set_auditing_game_ids (auditing_game_ids st ∖ {[game_id]}) st
  else st.

(** [while len(answers) <= question_index: answers.append("")] *)
Definition pad_answers (question_index : nat) (answers : list string)
    : list string :=
  (answers ++ replicate (S question_index - length answers) "")%list.

Definition _handle_question_timeout (now : Q) (st : State) (key : string)
    (user_id group_id : Z) (question_index : nat) : State :=
  match audit_sessions st !! key with
  | None => st
  | Some session =>
      let game_id := s_game_id session in
      if negb (length (s_answers session) =? question_index)%nat then st
      else
        let answers := pad_answers question_index (s_answers session) in
        let st1 :=
          set_audit_sessions
            (<[key := set_answers answers session]> (audit_sessions st)) st in
        let st2 := release_game_id st1 game_id in
        let record :=
          {| r_user_id := user_id; r_game_id := game_id;
             r_group_id := group_id;
             r_questions := s_questions session; r_answers := answers;
             r_score := 0; r_passed := false;
             r_state := Some (question_index + 1)%nat;
             r_start_time := s_start_time session; r_end_time := now |} in
        let st3 := _save_audit_record st2 record in
        let st4 := _set_cooldown now st3 user_id game_id in
        let st5 := set_timeout_tasks (delete key (timeout_tasks st4)) st4 in
        set_audit_sessions (delete key (audit_sessions st5)) st5
  end.

(** The body of a timeout task once [asyncio.sleep] is over. *)
Definition _check_question_timeout (now : Q) (st : State) (key : string)
    (user_id group_id : Z) (question_index : nat) : State :=
  match audit_sessions st !! key with
  | None => st
  | Some session =>
      if negb (length (s_answers session) =? question_index)%nat then st
      else if negb (bool_decide (s_game_id session ∈ auditing_game_ids st))
      then st
      else _handle_question_timeout now st key user_id group_id question_index
  end.

(** *** Scoring *)

(** One pass through the body of the retry loop of [_evaluate_answers]:
    [Some score] when the pass returns, [None] when the loop goes on
    (a reply without a number or with a number out of range, a timeout,
    an exception, or no [AsyncOpenAI] at all).  Where Python's [int]
    refuses a run of several thousand digits with an exception, the number
    read here is out of range: the pass is refused either way. *)
Definition score_attempt (ai_available : bool) (outcome : AiOutcome)
    (total_score : Z) : option Z :=
  if ai_available then
    match outcome with
    | AiReply response_text =>
        match Py.search_digits response_text with
        | Some digits =>
            let score := Py.int_of_digits 0 digits in
            if ((0 <=? score) && (score <=? total_score))%Z then Some score
            else None
        | None => None
        end
    | AiTimeout => None
    | AiError => None
    end
  else None.

Fixpoint evaluate_loop (ai_available : bool) (ai : nat -> AiOutcome)
    (total_score : Z) (attempts : list nat) : Z :=
  match attempts with
  | [] => 0
  | attempt :: rest =>
      match score_attempt ai_available (ai attempt) total_score with
      | Some score => score
      | None => evaluate_loop ai_available ai total_score rest
      end
  end.

Definition max_retries : nat := 2.

(** [ai attempt] is what the request of pass [attempt] ends in. *)
Definition _evaluate_answers (ai_available : bool) (ai : nat -> AiOutcome)
    (questions answers : list string) : Z :=
  let total_score := question_count cfg * 10 in
  evaluate_loop ai_available ai total_score (seq 0 max_retries).

(** *** The remote whitelist *)

Definition _check_whitelist_status (game_id : string) (rcon_client : RconClient)
    : bool :=
  match execute_command rcon_client 1 (list_command cfg) with
  | Ret (Some result) =>
      negb (String.eqb result "") && Py.contains game_id result
  | Ret None => false
  | Raise => false
  end.

Definition _add_to_server_whitelist (game_id : string)
    (rcon_client : option RconClient) : bool :=
  match rcon_client with
  | None => false
  | Some client =>
      match is_connected client with
      | Ret true =>
          match py_format (add_command cfg) game_id with
          | Ret command =>
              match execute_command client 0 command with
              | Ret (Some _) => true
              | Ret None => _check_whitelist_status game_id client
              | Raise => false
              end
          | Raise => false
          end
      | Ret false => false
      | Raise => false
      end
  end.

(** *** Completion *)

(** [_complete_audit] up to [await self._evaluate_answers(...)]: the
    session object it holds on to, or [None] when the lookup raises. *)
Definition complete_audit_begin (st : State) (key : string)
    : option (State * Session) :=
  match audit_sessions st !! key with
  | None => None
  | Some session => Some (cancel_timeout_task st key, session)
  end.

(** [_complete_audit] from the score on.  [session] is the object taken
    before the await, as it is now; [del self.audit_sessions[session_key]]
    raises when the key is gone, and the handler of the exception sends
    the error text. *)
Definition complete_audit_finish (now : Q) (st : State) (key : string)
    (user_id group_id : Z) (rcon_client : option RconClient)
    (session : Session) (score : Z) : State * list (Z * Msg) :=
  let game_id := s_game_id session in
  let record :=
    {| r_user_id := user_id; r_game_id := game_id; r_group_id := group_id;
       r_questions := s_questions session; r_answers := s_answers session;
       r_score := score; r_passed := (pass_score cfg <=? score)%Z;
       r_state := None;
       r_start_time := s_start_time session; r_end_time := now |} in
  let st1 := _save_audit_record st record in
  let st2 := release_game_id st1 game_id in
  match audit_sessions st2 !! key with
  | None => (st2, [(group_id, MsgAt user_id MsgCompleteError)])
  | Some _ =>
      let st3 := set_audit_sessions (delete key (audit_sessions st2)) st2 in
      let total_score := question_count cfg * 10 in
      if (pass_score cfg <=? score)%Z then
        let success := _add_to_server_whitelist game_id rcon_client in
        let st4 := _add_to_whitelist now st3 game_id user_id group_id false in
        let count := _get_user_whitelist_count st4 user_id in
        let result_message :=
          if success
          then MsgPassed score total_score game_id count
                 (max_whitelist_per_qq cfg)
          else MsgPassedLocalOnly score total_score game_id count
                 (max_whitelist_per_qq cfg) in
        (st4, [(group_id, MsgAt user_id result_message)])
      else
        let st4 := _set_cooldown now st3 user_id game_id in
        (st4, [(group_id,
                MsgAt user_id
                  (MsgFailed score total_score (pass_score cfg)
                     (cooldown_seconds cfg / 3600)))])
  end.

(** [_complete_audit] when nothing else runs while the score is awaited. *)
Definition _complete_audit (now : Q) (st : State) (key : string)
    (user_id group_id : Z) (rcon_client : option RconClient)
    (ai_available : bool) (ai : nat -> AiOutcome) : State * list (Z * Msg) :=
  match complete_audit_begin st key with
  | None => (st, [(group_id, MsgAt user_id MsgCompleteError)])
  | Some (st1, session) =>
      let score :=
        _evaluate_answers ai_available ai
          (s_questions session) (s_answers session) in
      complete_audit_finish now st1 key user_id group_id rcon_client
        session score
  end.

(** *** Command handlers *)

(** [handle_whitelist_command]: the reply; on acceptance the detached
    [_prepare_and_send_first_question] task is handed to the loop. *)
Definition handle_whitelist_command (now : Q) (st : State)
    (user_id group_id : Z) (command_text : string) : State * Msg :=
  if (group_id =? 0)%Z then (st, MsgNeedGroup)
  else if negb (_is_group_allowed group_id) then (st, MsgGroupNotAllowed)
  else
    let game_id := Py.strip command_text in
    if String.eqb game_id "" then (st, MsgEmptyGameId)
    else if negb (_is_valid_game_id game_id) then (st, MsgBadGameId)
    else
      let '(st1, cooldown_remaining) :=
        _check_cooldown now st user_id game_id in
      if (0 <? cooldown_remaining)%Z then
        (st1, MsgCooldown (cooldown_remaining / 3600)
                ((cooldown_remaining mod 3600) / 60))
      else if _is_in_whitelist st1 game_id then
        (st1, MsgAlreadyWhitelisted game_id)
      else
        let user_whitelist_count := _get_user_whitelist_count st1 user_id in
        let max_allowed := max_whitelist_per_qq cfg in
        if (max_allowed <=? user_whitelist_count)%Z then
          (st1, MsgQuota user_whitelist_count max_allowed)
        else if bool_decide (game_id ∈ auditing_game_ids st1) then
          (st1, MsgBeingAudited game_id)
        else
          let key := session_key user_id group_id in
          if bool_decide (is_Some (audit_sessions st1 !! key)) then
            (st1, MsgSessionActive)
          else
            (set_prepares
               (prepares st1 ++ [{| p_session_key := key;
                                    p_user_id := user_id;
                                    p_group_id := group_id;
                                    p_game_id := game_id;
                                    p_pending := true |}])%list st1,
             MsgAt user_id (MsgReceived game_id)).

(** [_prepare_and_send_first_question] from the return of
    [await self._fetch_questions()] on; [questions] is what it returned. *)
Definition _prepare_and_send_first_question (now : Q) (st : State)
    (key : string) (user_id group_id : Z) (game_id : string)
    (questions : option (list string)) : State * list (Z * Msg) :=
  match questions with
  | None | Some [] => (st, [(group_id, MsgAt user_id MsgFetchFailed)])
  | Some ((first_question :: _) as questions) =>
      let session :=
        {| s_user_id := user_id; s_game_id := game_id;
           s_group_id := group_id; s_questions := questions;
           s_answers := []; s_current_question_index := 0;
           s_start_time := now; s_last_activity_time := now;
           s_current_question_start_time := now |} in
      let st1 := set_audit_sessions (<[key := session]> (audit_sessions st)) st in
      let st2 :=
        set_auditing_game_ids ({[game_id]} ∪ auditing_game_ids st1) st1 in
      let st3 := start_timeout_task now st2 key user_id group_id 0 in
      (st3, [(group_id,
              MsgAt user_id
                (MsgFirstQuestion (question_count cfg) first_question
                   (answer_timeout cfg / 60)))])
  end.

(** [handle_answer_command]; the audit path calls [_complete_audit]
    without an RCON client. *)
Definition handle_answer_command (now : Q) (st : State)
    (user_id group_id : Z) (command_text : string)
    (ai_available : bool) (ai : nat -> AiOutcome)
    : State * option Msg * list (Z * Msg) :=
  let key := session_key user_id group_id in
  match audit_sessions st !! key with
  | None => (st, Some MsgNoSession, [])
  | Some session =>
      let answer := Py.strip command_text in
      if String.eqb answer "" then (st, Some MsgEmptyAnswer, [])
      else if (500 <? String.length answer)%nat then
        (st, Some MsgAnswerTooLong, [])
      else
        let current_question_elapsed :=
          (now - s_current_question_start_time session)%Q in
        if Py.Qgtb current_question_elapsed (inject_Z (answer_timeout cfg))
        then
          (_handle_question_timeout now st key user_id group_id
             (length (s_answers session)),
           Some MsgAnswerTimedOut, [])
        else
          let st1 := cancel_timeout_task st key in
          let session1 :=
            set_last_activity_time now
              (set_answers (s_answers session ++ [answer])%list session) in
          let st2 :=
            set_audit_sessions (<[key := session1]> (audit_sessions st1)) st1 in
          let current_progress := length (s_answers session1) in
          let total_questions := question_count cfg in
          if (total_questions <=? Z.of_nat current_progress)%Z then
            let '(st3, sent) :=
              _complete_audit now st2 key user_id group_id None
                ai_available ai in
            (st3, None, sent)
          else
            let session2 := set_current_question_start_time now session1 in
            let st3 :=
              set_audit_sessions (<[key := session2]> (audit_sessions st2)) st2 in
            let next_index := current_progress in
            match s_questions session2 !! next_index with
            | Some next_question =>
                let st4 :=
                  start_timeout_task now st3 key user_id group_id next_index in
                (st4, None,
                 [(group_id,
                   MsgAt user_id
                     (MsgNextQuestion (current_progress + 1) total_questions
                        next_question (answer_timeout cfg / 60)))])
            | None => (st3, Some MsgIndexError, [])
            end
  end.

(** The [add] branch of [handle_admin]. *)
Definition handle_admin_add (now : Q) (st : State) (user_id group_id : Z)
    (game_id : string) (rcon_client : option RconClient) : State * Msg :=
  let success := _add_to_server_whitelist game_id rcon_client in
  if success then
    (_add_to_whitelist now st game_id user_id group_id true,
     MsgAdminAdded game_id)
  else
    (_add_to_whitelist now st game_id user_id group_id true,
     MsgAdminAddedLocalOnly game_id).

(** *** The idle-session sweep *)

(** The keys collected by the first loop of [_cleanup_expired_sessions]. *)
Definition expired_sessions (now : Q) (st : State) : list string :=
  (filter (fun ks => Py.Qgtb (now - s_last_activity_time ks.2)%Q 1800 = true)
          (map_to_list (audit_sessions st))).*1.

(** The body of its second loop. *)
Definition cleanup_session (st : State) (key : string) : State :=
  match audit_sessions st !! key with
  | None => st
  | Some session =>
      let st1 := release_game_id st (s_game_id session) in
      let st2 := cancel_timeout_task st1 key in
      set_audit_sessions (delete key (audit_sessions st2)) st2
  end.

(** One round of [_cleanup_expired_sessions], after its sleep. *)
Definition _cleanup_expired_sessions (now : Q) (st : State) : State :=
  foldl cleanup_session st (expired_sessions now st).

(** ** The event loop *)

(** What the loop can run next: a command from the transport, or a task
    of the plugin that is ready; [now] is the clock when it runs.  A
    timeout task is ready once its sleep of [answer_timeout] seconds is
    over.  [EAnswer] runs [handle_answer_command] to its end, and [cfg] is
    the same for every event: [run] covers the schedules in which no other
    task is run while [_complete_audit] awaits the score, and in which the
    configuration is not changed ([on_config_reload], the [set_max]
    command).  During that await the program still holds the session, with
    all its answers; what is stated of every [reachable] state is stated
    of the states between the events of such a schedule. *)
Inductive Event :=
| EStart (now : Q) (user_id group_id : Z) (command_text : string)
| EPrepare (now : Q) (task : nat) (questions : option (list string))
| EAnswer (now : Q) (user_id group_id : Z) (command_text : string)
    (ai_available : bool) (ai : nat -> AiOutcome)
| ETimeout (now : Q) (task : nat)
| ECleanup (now : Q)
| EAdminAdd (now : Q) (user_id group_id : Z) (game_id : string)
    (rcon_client : option RconClient).

Definition sends (l : list (Z * Msg)) : list Out :=
  map (fun gm => Send gm.1 gm.2) l.

Definition step (st : State) (e : Event) : State * list Out :=
  match e with
  | EStart now user_id group_id command_text =>
      let '(st1, m) :=
        handle_whitelist_command now st user_id group_id command_text in
      (st1, [Return (Some m)])
  | EPrepare now id questions =>
      match prepares st !! id with
      | Some p =>
          if p_pending p then
            let st1 := set_prepares (<[id := set_pending false p]> (prepares st)) st in
            let '(st2, sent) :=
              _prepare_and_send_first_question now st1 (p_session_key p)
                (p_user_id p) (p_group_id p) (p_game_id p) questions in
            (st2, sends sent)
          else (st, [])
      | None => (st, [])
      end
  | EAnswer now user_id group_id command_text ai_available ai =>
      let '(st1, m, sent) :=
        handle_answer_command now st user_id group_id command_text
          ai_available ai in
      (st1, (sends sent ++ [Return m])%list)
  | ETimeout now id =>
      match tasks st !! id with
      | Some t =>
          match t_status t with
          | Sleeping =>
              if Qle_bool (t_created t + inject_Z (answer_timeout cfg)) now
              then
                let st1 :=
                  _check_question_timeout now st (t_session_key t)
                    (t_user_id t) (t_group_id t) (t_question_index t) in
                (set_tasks (alter (set_status Done) id (tasks st1)) st1, [])
              else (st, [])
          | _ => (st, [])
          end
      | None => (st, [])
      end
  | ECleanup now => (_cleanup_expired_sessions now st, [])
  | EAdminAdd now user_id group_id game_id rcon_client =>
      let '(st1, m) :=
        handle_admin_add now st user_id group_id game_id rcon_client in
      (st1, [Return (Some m)])
  end.

Fixpoint run (st : State) (events : list Event) : State * list Out :=
  match events with
  | [] => (st, [])
  | e :: rest =>
      let '(st1, out1) := step st e in
      let '(st2, out2) := run st1 rest in
      (st2, (out1 ++ out2)%list)
  end.

(** The plugin after [on_load]: the three documents read from disk, no
    session, no lock, no task. *)
Definition loaded (records : gmap string (list AuditRecord))
    (wl : gmap string WhitelistInfo) (cd : gmap string Q) : State :=
  set_cooldown cd (set_whitelist wl (set_audit_records records init)).

(** The states the loop can reach from a loaded plugin. *)
Definition reachable (st : State) : Prop :=
  exists records wl cd events, (run (loaded records wl cd) events).1 = st.

End Engine.

Arguments session_key : simpl never.
Arguments cooldown_key : simpl never.

(** ** A concrete deployment

    Three questions, pass mark 18 of 30, one group, one name per member:
    the setting of the scenarios the properties are tried on. *)

Module Scenario.

Definition cfg : Config :=
  {| allowed_groups := [100]; cooldown_seconds := 3600; pass_score := 18;
     question_count := 3; answer_timeout := 180; max_whitelist_per_qq := 1;
     add_command := "whitelist add {player}";
     list_command := "whitelist list" |}.

Definition format_player (template game_id : string) : Outcome string :=
  Ret ("whitelist add " ++ game_id).

Definition questions : list string := ["Q1"; "Q2"; "Q3"].

(** An RCON client whose every command raises. *)
Definition broken_rcon : RconClient :=
  {| is_connected := Ret true; execute_command := fun _ _ => Raise |}.

(** An RCON client that confirms every command, and one that answers
    nothing to the add command and lists the whitelist. *)
Definition answering_rcon : RconClient :=
  {| is_connected := Ret true;
     execute_command := fun _ _ => Ret (Some "Added to the whitelist") |}.

Definition silent_rcon : RconClient :=
  {| is_connected := Ret true;
     execute_command := fun n _ =>
       match n with
       | O => Ret None
       | _ => Ret (Some "There are 2 whitelisted players: Alex, Steve")
       end |}.

(** A scoring model that answers 22, and one that never answers. *)
Definition ai_22 (attempt : nat) : AiOutcome := AiReply "22".
Definition ai_down (attempt : nat) : AiOutcome := AiTimeout.

(** Member 1 of group 100 has been sent the first question for "Alex". *)
Definition interviewing : State :=
  (run cfg format_player init
     [EStart 0 1 100 "Alex"; EPrepare 1 0%nat (Some questions)]).1.

(** The same, two answers later. *)
Definition two_answered : State :=
  (run cfg format_player interviewing
     [EAnswer 10 1 100 "first" true ai_22;
      EAnswer 20 1 100 "second" true ai_22]).1.

(** The third answer is scored below the pass mark at time 30 (cooldown
    until 3630); then member 1, as administrator, adds "Bob". *)
Definition failed_then_added : State :=
  (run cfg format_player two_answered
     [EAnswer 30 1 100 "third" true ai_down;
      EAdminAdd 40 1 100 "Bob" None]).1.

(** Member 1 is being interviewed for "Alex" and, as administrator, has
    added "Bob". *)
Definition interviewing_at_quota : State :=
  (run cfg format_player interviewing [EAdminAdd 5 1 100 "Bob" None]).1.

(** Members 1 and 2 both ask for "Alex" before either preparation task
    has run; then both tasks run. *)
Definition interleaved_starts : list Event :=
  [EStart 0 1 100 "Alex"; EStart 0 2 100 "Alex";
   EPrepare 1 0%nat (Some questions); EPrepare 1 1%nat (Some questions)].

(** Member 2 asks for "Alex" after the preparation task of member 1 has
    run. *)
Definition sequential_starts : list Event :=
  [EStart 0 1 100 "Alex"; EPrepare 1 0%nat (Some questions);
   EStart 2 2 100 "Alex"].

(** Member 1 asks for "Alex" and then for "Bob" before either preparation
    task has run; the task for "Alex" has its questions at time 1, the
    task for "Bob" at time 101. *)
Definition overwritten_starts : list Event :=
  [EStart 0 1 100 "Alex"; EStart 0 1 100 "Bob";
   EPrepare 1 0%nat (Some questions); EPrepare 101 1%nat (Some questions)].

End Scenario.

(** ** Vocabulary of the statements *)

(** A reply that is not a number within the range is passed over. *)
Definition refused (total_score : Z) (outcome : AiOutcome) : Prop :=
  match outcome with
  | AiReply response_text =>
      match Py.search_digits response_text with
      | Some digits =>
          ~ (0 <= Py.int_of_digits 0 digits <= total_score)
      | None => True
      end
  | AiTimeout => True
  | AiError => True
  end.

(** The record written for a question that ran out of time. *)
Definition timeout_record (now : Q) (session : Session) (user_id group_id : Z)
    (question_index : nat) : AuditRecord :=
  {| r_user_id := user_id; r_game_id := s_game_id session;
     r_group_id := group_id; r_questions := s_questions session;
     r_answers := (s_answers session ++ [""])%list;
     r_score := 0; r_passed := false;
     r_state := Some (question_index + 1)%nat;
     r_start_time := s_start_time session; r_end_time := now |}.

(** Every live session has its stored question index at 0. *)
Definition stored_index_zero (st : State) : Prop :=
  forall key session,
    audit_sessions st !! key = Some session ->
    s_current_question_index session = 0%nat.

(** The first check of a list that fails, with its error text. *)
Fixpoint first_failure (checks : list (bool * Msg)) : option Msg :=
  match checks with
  | [] => None
  | (ok, err) :: rest => if ok then first_failure rest else Some err
  end.

Section StartChecks.

Context (cfg : Config) (now : Q) (st : State) (user_id group_id : Z)
  (command_text : string).

Let game_id := Py.strip command_text.
Let cooldown_remaining := (_check_cooldown now st user_id game_id).2.
Let user_whitelist_count := _get_user_whitelist_count st user_id.

(** The checks of a start request, each read on the state before the
    call. *)
Definition check_group_given : bool * Msg :=
  (negb (group_id =? 0)%Z, MsgNeedGroup).
Definition check_group_allowed : bool * Msg :=
  (_is_group_allowed cfg group_id, MsgGroupNotAllowed).
Definition check_game_id_given : bool * Msg :=
  (negb (String.eqb game_id ""), MsgEmptyGameId).
Definition check_game_id_valid : bool * Msg :=
  (_is_valid_game_id game_id, MsgBadGameId).
Definition check_no_session : bool * Msg :=
  (negb (bool_decide
           (is_Some (audit_sessions st !! session_key user_id group_id))),
   MsgSessionActive).
Definition check_quota : bool * Msg :=
  ((user_whitelist_count <? max_whitelist_per_qq cfg)%Z,
   MsgQuota user_whitelist_count (max_whitelist_per_qq cfg)).
Definition check_not_whitelisted : bool * Msg :=
  (negb (_is_in_whitelist st game_id), MsgAlreadyWhitelisted game_id).
Definition check_no_cooldown : bool * Msg :=
  (negb (0 <? cooldown_remaining)%Z,
   MsgCooldown (cooldown_remaining / 3600)
     ((cooldown_remaining mod 3600) / 60)).
Definition check_not_being_audited : bool * Msg :=
  (negb (bool_decide (game_id ∈ auditing_game_ids st)),
   MsgBeingAudited game_id).

(** The order the specification gives: channel, identifier, active
    session, quota, whitelist, cooldown, lock. *)
Definition checks_in_specified_order : list (bool * Msg) :=
  [check_group_given; check_group_allowed;
   check_game_id_given; check_game_id_valid;
   check_no_session; check_quota; check_not_whitelisted;
   check_no_cooldown; check_not_being_audited].

(** The order of [handle_whitelist_command]: channel, identifier,
    cooldown, whitelist, quota, lock, active session. *)
Definition checks_in_source_order : list (bool * Msg) :=
  [check_group_given; check_group_allowed;
   check_game_id_given; check_game_id_valid;
   check_no_cooldown; check_not_whitelisted; check_quota;
   check_not_being_audited; check_no_session].

End StartChecks.

(** ** The other operations of the plugin *)

(** The keys of [self.config] read by the question source and by the
    [remove] command. *)
Record MoreConfig := {
  use_ai_questions : bool;
  default_questions : list string;
  remove_command : string
}.

(** The texts of the [remove] and [reset] branches of [handle_admin];
    [MsgAdminFailed] is the text of its exception handler. *)
Inductive AdminMsg :=
| MsgAdminRemoved (game_id : string)
| MsgAdminRemovedLocalOnly (game_id : string)
| MsgAdminNotFound
| MsgResetDone (target_user_id : string)
| MsgResetNotFound (target_user_id : string)
| MsgAdminFailed.

(** What one request for questions ends in: the lines [_parse_questions]
    keeps of the reply, a timeout, or any other exception. *)
Inductive FetchOutcome :=
| FetchParsed (questions : list string)
| FetchTimeout
| FetchError.

(** [l[:n]], also for a negative [n]. *)
Definition slice_to {A : Type} (l : list A) (n : Z) : list A :=
  if (0 <=? n)%Z then take (Z.to_nat n) l
  else take (length l - Z.to_nat (- n)) l.

Section More.

Variable cfg : Config.
Variable py_format : string -> string -> Outcome string.
Variable more : MoreConfig.

(** *** Removing from the remote whitelist *)

Definition _check_whitelist_removed (game_id : string) (rcon_client : RconClient)
    : bool :=
  match execute_command rcon_client 1 (list_command cfg) with
  | Ret (Some result) =>
      negb (String.eqb result "") && negb (Py.contains game_id result)
  | Ret None => false
  | Raise => false
  end.

Definition _remove_from_server_whitelist (game_id : string)
    (rcon_client : option RconClient) : bool :=
  match rcon_client with
  | None => false
  | Some client =>
      match is_connected client with
      | Ret true =>
          match py_format (remove_command more) game_id with
          | Ret command =>
              match execute_command client 0 command with
              | Ret (Some _) => true
              | Ret None => _check_whitelist_removed game_id client
              | Raise => false
              end
          | Raise => false
          end
      | Ret false => false
      | Raise => false
      end
  end.

(** The [remove] branch of [handle_admin]. *)
Definition handle_admin_remove (st : State) (game_id : string)
    (rcon_client : option RconClient) : State * AdminMsg :=
  match whitelist st !! game_id with
  | Some _ =>
      let success := _remove_from_server_whitelist game_id rcon_client in
      let st1 := set_whitelist (delete game_id (whitelist st)) st in
      (st1, if success then MsgAdminRemoved game_id
            else MsgAdminRemovedLocalOnly game_id)
  | None => (st, MsgAdminNotFound)
  end.

(** The [reset] branch of [handle_admin].  [keys] is
    [self.audit_sessions.keys()], in the order the dictionary yields
    them; the loop stops at the first one that starts with
    [f"{target_user_id}_"]. *)
Definition handle_admin_reset (keys : list string) (st : State)
    (target_user_id : string) : State * AdminMsg :=
  match find (String.prefix (target_user_id ++ "_")) keys with
  | Some session_key_to_remove =>
      match audit_sessions st !! session_key_to_remove with
      | Some session =>
          let st1 := release_game_id st (s_game_id session) in
          let st2 := cancel_timeout_task st1 session_key_to_remove in
          (set_audit_sessions
             (delete session_key_to_remove (audit_sessions st2)) st2,
           MsgResetDone target_user_id)
      | None => (st, MsgAdminFailed)
      end
  | None => (st, MsgResetNotFound target_user_id)
  end.

(** *** Unloading *)

(** [on_unload]: every registered timeout task that is not done is
    cancelled, and [auditing_game_ids] is cleared. *)
Definition on_unload (st : State) : State :=
  let cancelled :=
    foldl (fun ts entry => alter cancel_task entry.2 ts) (tasks st)
      (map_to_list (timeout_tasks st)) in
  set_auditing_game_ids ∅ (set_tasks cancelled st).

(** *** The question source *)

(** One pass through the retry loop of [_fetch_questions_from_ai]:
    [Some result] when the pass returns [result], [None] when the loop
    goes on. *)
Definition fetch_attempt (ai_available : bool) (outcome : FetchOutcome)
    (attempt max_retries : nat) : option (option (list string)) :=
  if ai_available then
    match outcome with
    | FetchParsed questions =>
        if (question_count cfg <=? Z.of_nat (length questions))%Z
        then Some (Some questions)
        else if (attempt <? max_retries - 1)%nat then None else Some None
    | FetchTimeout =>
        if (attempt <? max_retries - 1)%nat then None else Some None
    | FetchError =>
        if (attempt <? max_retries - 1)%nat then None else Some None
    end
  else None.

Fixpoint fetch_loop (ai_available : bool) (ai : nat -> FetchOutcome)
    (max_retries : nat) (attempts : list nat) : option (list string) :=
  match attempts with
  | [] => None
  | attempt :: rest =>
      match fetch_attempt ai_available (ai attempt) attempt max_retries with
      | Some result => result
      | None => fetch_loop ai_available ai max_retries rest
      end
  end.

(** [ai attempt] is what the request of pass [attempt] ends in. *)
Definition _fetch_questions_from_ai (ai_available : bool)
    (ai : nat -> FetchOutcome) : option (list string) :=
  let max_retries := 3%nat in
  fetch_loop ai_available ai max_retries (seq 0 max_retries).

(** [sample] is [random.sample]; it raises on a negative size. *)
Definition _get_default_questions (sample : list string -> nat -> list string)
    : Outcome (list string) :=
  let question_count := question_count cfg in
  if (Z.of_nat (length (default_questions more)) <=? question_count)%Z
  then Ret (slice_to (default_questions more) question_count)
  else if (question_count <? 0)%Z then Raise
  else Ret (sample (default_questions more) (Z.to_nat question_count)).

Definition _fetch_questions (ai_available : bool) (ai : nat -> FetchOutcome)
    (sample : list string -> nat -> list string) : Outcome (list string) :=
  let from_ai :=
    if use_ai_questions more then _fetch_questions_from_ai ai_available ai
    else None in
  match from_ai with
  | Some ((_ :: _) as questions) =>
      if (question_count cfg <=? Z.of_nat (length questions))%Z
      then Ret (slice_to questions (question_count cfg))
      else _get_default_questions sample
  | _ => _get_default_questions sample
  end.

End More.

(** *** Vocabulary of the further properties *)

(** The records of every requester are kept, in their order. *)
Definition records_extend (st st' : State) : Prop :=
  forall user old,
    audit_records st !! user = Some old ->
    exists added, audit_records st' !! user = Some (old ++ added)%list.

(** The characters other than the separator of the keys. *)
Definition not_underscore (c : ascii) : bool := negb (Ascii.eqb c "_").

(** One step of the loop of [_get_user_whitelist_count]. *)
Definition tally (user_id : Z) (_ : string) (info : WhitelistInfo) (count : Z)
    : Z :=
  if decide (w_user_id info = user_id) then count + 1 else count.

(** The record written when an interview is completed with [score]. *)
Definition completion_record (cfg : Config) (now : Q) (session : Session)
    (user_id group_id : Z) (score : Z) : AuditRecord :=
  {| r_user_id := user_id; r_game_id := s_game_id session;
     r_group_id := group_id; r_questions := s_questions session;
     r_answers := s_answers session;
     r_score := score; r_passed := (pass_score cfg <=? score)%Z;
     r_state := None;
     r_start_time := s_start_time session; r_end_time := now |}.

(** A deployment with a bank of five questions and no AI. *)
Module Bank.

Definition more : MoreConfig :=
  {| use_ai_questions := false;
     default_questions := ["D1"; "D2"; "D3"; "D4"; "D5"];
     remove_command := "whitelist remove {player}" |}.

Definition sample (l : list string) (k : nat) : list string := take k l.

Definition ai_short (attempt : nat) : FetchOutcome :=
  match attempt with
  | 2%nat => FetchParsed ["A1"; "A2"; "A3"; "A4"]
  | _ => FetchParsed ["A1"]
  end.

End Bank.

(** ** Python text primitives: checks *)

Example strip_ex : Py.strip "  Steve123 " = "Steve123".
Proof. reflexivity. Qed.

Example strip_blank : Py.strip "   " = "".
Proof. reflexivity. Qed.

Example search_digits_ex : Py.search_digits "score: 22/30" = Some "22".
Proof. reflexivity. Qed.

Example int_of_digits_ex : Py.int_of_digits 0 "007" = 7.
Proof. reflexivity. Qed.

Example int_of_Q_ex : Py.int_of_Q (7 # 2) = 3.
Proof. reflexivity. Qed.

Example str_ex : Py.str 42 = "42" /\ Py.str (-5) = "-5".
Proof. split; reflexivity. Qed.

Example valid_game_id_ex :
  _is_valid_game_id "Steve123" = true /\ _is_valid_game_id "ab" = false
  /\ _is_valid_game_id "bad name" = false.
Proof. repeat split; reflexivity. Qed.

Example valid_game_id_newline :
  _is_valid_game_id (String.append "abc" (String (ascii_of_nat 10) "")) = true
  /\ _is_valid_game_id
       (String.append "abc"
          (String (ascii_of_nat 10) (String (ascii_of_nat 10) ""))) = false.
Proof. split; reflexivity. Qed.

Example contains_ex :
  Py.contains "Alex" "There are 2 whitelisted players: Alex, Steve" = true
  /\ Py.contains "Bob" "Alex, Steve" = false.
Proof. split; reflexivity. Qed.

Example session_key_ex : session_key 1 100 = "1_100".
Proof. reflexivity. Qed.

Example interviewing_session :
  s_answers <$> audit_sessions Scenario.interviewing !! "1_100" = Some []
  /\ elements (auditing_game_ids Scenario.interviewing) = ["Alex"].
Proof. split; vm_compute; reflexivity. Qed.

(** ** Answer intake *)

(** C10: an answer that is empty, or longer than 500 characters, once
    stripped is refused with an error text, and the state -- the session,
    its answers, its timeout task -- is exactly what it was. *)
Theorem rejected_answer_leaves_session
    (cfg : Config) (py_format : string -> string -> Outcome string)
    (now : Q) (st : State) (user_id group_id : Z) (command_text : string)
    (ai_available : bool) (ai : nat -> AiOutcome) (session : Session) :
  audit_sessions st !! session_key user_id group_id = Some session ->
  Py.strip command_text = ""
  \/ (500 < String.length (Py.strip command_text))%nat ->
  exists m,
    handle_answer_command cfg py_format now st user_id group_id command_text
      ai_available ai = (st, Some m, [])
    /\ (m = MsgEmptyAnswer \/ m = MsgAnswerTooLong).
Proof.
  intros Hsession Hbad. unfold handle_answer_command. rewrite Hsession.
  destruct (String.eqb (Py.strip command_text) "") eqn:Hempty.
  - exists MsgEmptyAnswer. auto.
  - destruct Hbad as [Hnil | Hlong].
    + rewrite Hnil in Hempty. discriminate.
    + apply Nat.ltb_lt in Hlong. rewrite Hlong.
      exists MsgAnswerTooLong. auto.
Qed.

Lemma rejected_answer_witness :
  exists m,
    handle_answer_command Scenario.cfg Scenario.format_player 5
      Scenario.interviewing 1 100 "   " true Scenario.ai_22
    = (Scenario.interviewing, Some m, [])
    /\ (m = MsgEmptyAnswer \/ m = MsgAnswerTooLong).
Proof.
  apply (rejected_answer_leaves_session Scenario.cfg Scenario.format_player 5
           Scenario.interviewing 1 100 "   " true Scenario.ai_22
           {| s_user_id := 1; s_game_id := "Alex"; s_group_id := 100;
              s_questions := Scenario.questions; s_answers := [];
              s_current_question_index := 0; s_start_time := 1;
              s_last_activity_time := 1;
              s_current_question_start_time := 1 |}).
  - vm_compute. reflexivity.
  - left. reflexivity.
Defined.

(** ** Scoring *)

Section Scoring.

Context (cfg : Config).

(** A pass of the retry loop returns only a number read from a reply of
    the model, and only one within the range. *)
Lemma score_attempt_Some ai_available outcome total_score score :
  score_attempt ai_available outcome total_score = Some score ->
  ai_available = true
  /\ 0 <= score <= total_score
  /\ exists response_text digits,
       outcome = AiReply response_text
       /\ Py.search_digits response_text = Some digits
       /\ Py.int_of_digits 0 digits = score.
Proof.
  unfold score_attempt. intros H.
  destruct ai_available; [|discriminate].
  destruct outcome as [response_text| |]; try discriminate.
  destruct (Py.search_digits response_text) as [digits|] eqn:Hd; [|discriminate].
  destruct ((0 <=? Py.int_of_digits 0 digits)
            && (Py.int_of_digits 0 digits <=? total_score))%Z eqn:Hr;
    [|discriminate].
  injection H as <-. apply andb_true_iff in Hr as [H0 H1].
  apply Z.leb_le in H0, H1. eauto 10.
Qed.

Lemma score_attempt_refused ai_available outcome total_score :
  refused total_score outcome ->
  score_attempt ai_available outcome total_score = None.
Proof.
  intros Href.
  destruct (score_attempt ai_available outcome total_score) as [score|] eqn:H;
    [|reflexivity].
  apply score_attempt_Some in H as (_ & Hrange & text & digits & -> & Hd & <-).
  simpl in Href. rewrite Hd in Href. contradiction.
Qed.

(** C7: with a question count that is not negative, the score of
    [_evaluate_answers] lies in [0, 10*N]; a score other than 0 is the
    number read from the reply of one of the two passes; when both passes
    end in a timeout, an exception, a reply without a number or a number
    out of range the score is 0; when only the first does, the reply of the
    second is taken; and no third request is ever made. *)
Theorem evaluate_answers_in_range
    (ai_available : bool) (ai : nat -> AiOutcome)
    (questions answers : list string) :
  0 <= question_count cfg ->
  let total_score := question_count cfg * 10 in
  let score := _evaluate_answers cfg ai_available ai questions answers in
  0 <= score <= total_score
  /\ (score <> 0 ->
      exists attempt response_text digits,
        (attempt < 2)%nat /\ ai attempt = AiReply response_text
        /\ Py.search_digits response_text = Some digits
        /\ Py.int_of_digits 0 digits = score)
  /\ (refused total_score (ai 0%nat) -> refused total_score (ai 1%nat) ->
      score = 0)
  /\ (refused total_score (ai 0%nat) -> ai_available = true ->
      forall response_text digits,
        ai 1%nat = AiReply response_text ->
        Py.search_digits response_text = Some digits ->
        0 <= Py.int_of_digits 0 digits <= total_score ->
        score = Py.int_of_digits 0 digits)
  /\ (forall ai' : nat -> AiOutcome,
        ai' 0%nat = ai 0%nat -> ai' 1%nat = ai 1%nat ->
        _evaluate_answers cfg ai_available ai' questions answers = score).
Proof.
  intros Hcount total_score score. subst score.
  unfold _evaluate_answers, max_retries. fold total_score. simpl.
  assert (0 <= total_score) as Htotal by (unfold total_score; lia).
  repeat split.
  - destruct (score_attempt _ (ai 0%nat) _) as [s|] eqn:H0;
      [apply score_attempt_Some in H0; lia|].
    destruct (score_attempt _ (ai 1%nat) _) as [s|] eqn:H1;
      [apply score_attempt_Some in H1; lia|]. lia.
  - destruct (score_attempt _ (ai 0%nat) _) as [s|] eqn:H0;
      [apply score_attempt_Some in H0; lia|].
    destruct (score_attempt _ (ai 1%nat) _) as [s|] eqn:H1;
      [apply score_attempt_Some in H1; lia|]. lia.
  - intros Hnz.
    destruct (score_attempt _ (ai 0%nat) _) as [s|] eqn:H0.
    { apply score_attempt_Some in H0 as (_ & _ & text & digits & ? & ? & ?).
      exists 0%nat, text, digits. auto with lia. }
    destruct (score_attempt _ (ai 1%nat) _) as [s|] eqn:H1.
    { apply score_attempt_Some in H1 as (_ & _ & text & digits & ? & ? & ?).
      exists 1%nat, text, digits. auto with lia. }
    contradiction.
  - intros R0 R1.
    rewrite (score_attempt_refused _ _ _ R0), (score_attempt_refused _ _ _ R1).
    reflexivity.
  - intros R0 -> response_text digits E1 Hd [Hlo Hhi].
    rewrite (score_attempt_refused _ _ _ R0), E1. simpl. rewrite Hd.
    apply Z.leb_le in Hlo, Hhi. rewrite Hlo, Hhi. reflexivity.
  - intros ai' E0 E1. rewrite E0, E1. reflexivity.
Qed.

End Scoring.

Example evaluate_answers_22 :
  _evaluate_answers Scenario.cfg true Scenario.ai_22 Scenario.questions
    ["a"; "b"; "c"] = 22.
Proof. reflexivity. Qed.

Example evaluate_answers_out_of_range :
  _evaluate_answers Scenario.cfg true (fun _ => AiReply "31")
    Scenario.questions ["a"; "b"; "c"] = 0.
Proof. reflexivity. Qed.

Example evaluate_answers_second_try :
  _evaluate_answers Scenario.cfg true
    (fun attempt => match attempt with
                    | O => AiTimeout
                    | _ => AiReply "Total: 25 points"
                    end)
    Scenario.questions ["a"; "b"; "c"] = 25.
Proof. reflexivity. Qed.

Lemma evaluate_answers_witness :
  0 <= _evaluate_answers Scenario.cfg true Scenario.ai_22 Scenario.questions
         ["a"; "b"; "c"] <= 30.
Proof.
  apply (evaluate_answers_in_range Scenario.cfg true Scenario.ai_22
           Scenario.questions ["a"; "b"; "c"]).
  vm_compute. discriminate.
Defined.

(** ** What each operation leaves alone *)

Section Frames.

Context (cfg : Config) (py_format : string -> string -> Outcome string).

Lemma release_game_id_ids st game_id :
  auditing_game_ids (release_game_id st game_id)
  = auditing_game_ids st ∖ {[game_id]}.
Proof.
  unfold release_game_id. case_decide as Hin; simpl; [reflexivity|].
  symmetry. apply difference_disjoint_L. set_solver.
Qed.

Lemma release_game_id_frame st game_id :
  audit_records (release_game_id st game_id) = audit_records st
  /\ whitelist (release_game_id st game_id) = whitelist st
  /\ cooldown (release_game_id st game_id) = cooldown st
  /\ audit_sessions (release_game_id st game_id) = audit_sessions st
  /\ timeout_tasks (release_game_id st game_id) = timeout_tasks st
  /\ tasks (release_game_id st game_id) = tasks st
  /\ prepares (release_game_id st game_id) = prepares st.
Proof. unfold release_game_id. case_decide; simpl; auto 10. Qed.

Lemma cancel_timeout_task_frame st key :
  audit_records (cancel_timeout_task st key) = audit_records st
  /\ whitelist (cancel_timeout_task st key) = whitelist st
  /\ cooldown (cancel_timeout_task st key) = cooldown st
  /\ audit_sessions (cancel_timeout_task st key) = audit_sessions st
  /\ auditing_game_ids (cancel_timeout_task st key) = auditing_game_ids st
  /\ prepares (cancel_timeout_task st key) = prepares st.
Proof.
  unfold cancel_timeout_task. destruct (timeout_tasks st !! key); simpl; auto 10.
Qed.

Lemma cleanup_session_frame st key :
  audit_records (cleanup_session st key) = audit_records st
  /\ whitelist (cleanup_session st key) = whitelist st
  /\ cooldown (cleanup_session st key) = cooldown st
  /\ prepares (cleanup_session st key) = prepares st.
Proof.
  unfold cleanup_session. destruct (audit_sessions st !! key) as [session|];
    [|auto]. simpl.
  destruct (cancel_timeout_task_frame (release_game_id st (s_game_id session)) key)
    as (-> & -> & -> & _ & _ & ->).
  destruct (release_game_id_frame st (s_game_id session))
    as (-> & -> & -> & _ & _ & _ & ->). auto.
Qed.

Lemma cleanup_expired_sessions_frame now st :
  audit_records (_cleanup_expired_sessions now st) = audit_records st
  /\ whitelist (_cleanup_expired_sessions now st) = whitelist st
  /\ cooldown (_cleanup_expired_sessions now st) = cooldown st
  /\ prepares (_cleanup_expired_sessions now st) = prepares st.
Proof.
  unfold _cleanup_expired_sessions.
  generalize (expired_sessions now st) as keys. intros keys. revert st.
  induction keys as [|key keys IH]; intros st; simpl; [auto|].
  destruct (IH (cleanup_session st key)) as (-> & -> & -> & ->).
  apply cleanup_session_frame.
Qed.

(** [_complete_audit] on a live session whose score reaches the pass mark. *)
Lemma complete_audit_pass now st key user_id group_id rcon_client
    ai_available ai session :
  audit_sessions st !! key = Some session ->
  pass_score cfg
  <= _evaluate_answers cfg ai_available ai
       (s_questions session) (s_answers session) ->
  let st' := (_complete_audit cfg py_format now st key user_id group_id
                rcon_client ai_available ai).1 in
  whitelist st'
  = <[s_game_id session :=
        {| w_user_id := user_id; w_group_id := group_id;
           w_added_by := ByAudit; w_add_time := now |}]> (whitelist st)
  /\ cooldown st' = cooldown st
  /\ audit_sessions st' = delete key (audit_sessions st)
  /\ auditing_game_ids st' = auditing_game_ids st ∖ {[s_game_id session]}.
Proof.
  intros Hsession Hpass. unfold _complete_audit, complete_audit_begin.
  rewrite Hsession. unfold complete_audit_finish.
  set (score := _evaluate_answers _ _ _ _ _) in *.
  set (record := Build_AuditRecord _ _ _ _ _ _ _ _ _ _).
  destruct (cancel_timeout_task_frame st key) as (_ & Hw & Hc & Hs & Hg & _).
  destruct (release_game_id_frame
              (_save_audit_record (cancel_timeout_task st key) record)
              (s_game_id session)) as (_ & Hw' & Hc' & Hs' & _).
  cbv zeta. rewrite Hs'. simpl. rewrite Hs, Hsession.
  apply Z.leb_le in Hpass. rewrite Hpass. simpl.
  rewrite Hw', Hc', release_game_id_ids. simpl.
  rewrite Hw, Hc, Hg. auto.
Qed.

(** [_complete_audit] on a live session whose score is below the pass mark. *)
Lemma complete_audit_fail now st key user_id group_id rcon_client
    ai_available ai session :
  audit_sessions st !! key = Some session ->
  _evaluate_answers cfg ai_available ai
    (s_questions session) (s_answers session) < pass_score cfg ->
  let st' := (_complete_audit cfg py_format now st key user_id group_id
                rcon_client ai_available ai).1 in
  whitelist st' = whitelist st
  /\ cooldown st'
     = <[cooldown_key user_id (s_game_id session) :=
           (now + inject_Z (cooldown_seconds cfg))%Q]> (cooldown st)
  /\ audit_sessions st' = delete key (audit_sessions st)
  /\ auditing_game_ids st' = auditing_game_ids st ∖ {[s_game_id session]}.
Proof.
  intros Hsession Hfail. unfold _complete_audit, complete_audit_begin.
  rewrite Hsession. unfold complete_audit_finish.
  set (score := _evaluate_answers _ _ _ _ _) in *.
  set (record := Build_AuditRecord _ _ _ _ _ _ _ _ _ _).
  destruct (cancel_timeout_task_frame st key) as (_ & Hw & Hc & Hs & Hg & _).
  destruct (release_game_id_frame
              (_save_audit_record (cancel_timeout_task st key) record)
              (s_game_id session)) as (_ & Hw' & Hc' & Hs' & _).
  cbv zeta. rewrite Hs'. simpl. rewrite Hs, Hsession.
  apply Z.leb_gt in Hfail. rewrite Hfail. simpl.
  rewrite Hw', Hc', release_game_id_ids. simpl.
  rewrite Hw, Hc, Hg. auto.
Qed.

End Frames.

(** ** Timeouts *)

Section Timeouts.

Context (cfg : Config) (py_format : string -> string -> Outcome string).

Lemma pad_answers_current (answers : list string) :
  pad_answers (length answers) answers = (answers ++ [""])%list.
Proof.
  unfold pad_answers.
  replace (S (length answers) - length answers)%nat with 1%nat by lia.
  reflexivity.
Qed.

(** What [_handle_question_timeout] does to a session that waits for the
    question the timeout is about. *)
Lemma handle_question_timeout_acts now st key user_id group_id session :
  audit_sessions st !! key = Some session ->
  let question_index := length (s_answers session) in
  let st' :=
    _handle_question_timeout cfg now st key user_id group_id question_index in
  audit_sessions st' = delete key (audit_sessions st)
  /\ auditing_game_ids st' = auditing_game_ids st ∖ {[s_game_id session]}
  /\ whitelist st' = whitelist st
  /\ cooldown st'
     = <[cooldown_key user_id (s_game_id session) :=
           (now + inject_Z (cooldown_seconds cfg))%Q]> (cooldown st)
  /\ audit_records st'
     = <[Py.str user_id :=
           (default [] (audit_records st !! Py.str user_id)
            ++ [timeout_record now session user_id group_id question_index])%list]>
         (audit_records st)
  /\ timeout_tasks st' = delete key (timeout_tasks st)
  /\ tasks st' = tasks st
  /\ prepares st' = prepares st.
Proof.
  intros Hsession. cbv zeta. unfold _handle_question_timeout.
  rewrite Hsession, Nat.eqb_refl. simpl. rewrite pad_answers_current.
  set (st1 := set_audit_sessions _ st).
  destruct (release_game_id_frame st1 (s_game_id session))
    as (Hr & Hw & Hc & Hs & Ht & Hk & Hp).
  unfold _save_audit_record. simpl.
  rewrite Hr, Hw, Hc, Hs, Ht, Hk, Hp, release_game_id_ids. subst st1. simpl.
  rewrite delete_insert_eq. repeat split; reflexivity.
Qed.

Lemma check_question_timeout_absent now st key user_id group_id question_index :
  audit_sessions st !! key = None ->
  _check_question_timeout cfg now st key user_id group_id question_index = st.
Proof. intros H. unfold _check_question_timeout. rewrite H. reflexivity. Qed.

Lemma check_question_timeout_stale now st key user_id group_id question_index
    session :
  audit_sessions st !! key = Some session ->
  length (s_answers session) <> question_index ->
  _check_question_timeout cfg now st key user_id group_id question_index = st.
Proof.
  intros H Hne. unfold _check_question_timeout. rewrite H.
  apply Nat.eqb_neq in Hne. rewrite Hne. reflexivity.
Qed.

Lemma check_question_timeout_guarded now st key user_id group_id question_index :
  _check_question_timeout cfg now st key user_id group_id question_index <> st ->
  exists session,
    audit_sessions st !! key = Some session
    /\ length (s_answers session) = question_index
    /\ s_game_id session ∈ auditing_game_ids st.
Proof.
  unfold _check_question_timeout. intros Hchanged.
  destruct (audit_sessions st !! key) as [session|]; [|contradiction].
  destruct (length (s_answers session) =? question_index)%nat eqn:Hidx;
    [|contradiction].
  destruct (bool_decide (s_game_id session ∈ auditing_game_ids st)) eqn:Hin;
    [|contradiction].
  exists session. apply Nat.eqb_eq in Hidx. apply bool_decide_eq_true in Hin.
  auto.
Qed.

Lemma check_question_timeout_fires now st key user_id group_id session :
  audit_sessions st !! key = Some session ->
  s_game_id session ∈ auditing_game_ids st ->
  _check_question_timeout cfg now st key user_id group_id
    (length (s_answers session))
  = _handle_question_timeout cfg now st key user_id group_id
      (length (s_answers session)).
Proof.
  intros H Hin. unfold _check_question_timeout.
  rewrite H, Nat.eqb_refl, (bool_decide_eq_true_2 _ Hin). reflexivity.
Qed.

(** After its score, [_complete_audit] has removed the session it found. *)
Lemma complete_audit_removes now st key user_id group_id rcon_client
    ai_available ai session :
  audit_sessions st !! key = Some session ->
  audit_sessions (_complete_audit cfg py_format now st key user_id group_id
                    rcon_client ai_available ai).1 !! key = None.
Proof.
  intros Hsession.
  destruct (Z.le_gt_cases (pass_score cfg)
              (_evaluate_answers cfg ai_available ai
                 (s_questions session) (s_answers session))) as [Hp | Hf].
  - destruct (complete_audit_pass cfg py_format now st key user_id group_id
                rcon_client ai_available ai session Hsession Hp)
      as (_ & _ & -> & _).
    apply lookup_delete_eq.
  - destruct (complete_audit_fail cfg py_format now st key user_id group_id
                rcon_client ai_available ai session Hsession Hf)
      as (_ & _ & -> & _).
    apply lookup_delete_eq.
Qed.

(** An answer call that changes anything leaves the session either gone
    or one answer longer. *)
Lemma handle_answer_command_progress now st user_id group_id command_text
    ai_available ai session :
  let key := session_key user_id group_id in
  let st1 := (handle_answer_command cfg py_format now st user_id group_id
                command_text ai_available ai).1.1 in
  audit_sessions st !! key = Some session ->
  st1 <> st ->
  audit_sessions st1 !! key = None
  \/ exists session1,
       audit_sessions st1 !! key = Some session1
       /\ s_answers session1
          = (s_answers session ++ [Py.strip command_text])%list.
Proof.
  intros key st1 Hsession. subst st1. unfold handle_answer_command.
  fold key. rewrite Hsession.
  destruct (String.eqb (Py.strip command_text) ""); [simpl; contradiction|].
  destruct (500 <? String.length (Py.strip command_text))%nat;
    [simpl; contradiction|].
  destruct (Py.Qgtb _ _).
  { intros _. left. simpl.
    destruct (handle_question_timeout_acts now st key user_id group_id session
                Hsession) as (-> & _).
    apply lookup_delete_eq. }
  destruct (cancel_timeout_task_frame st key) as (_ & _ & _ & Hs & _).
  simpl. rewrite length_app. simpl.
  destruct (question_count cfg <=? _)%Z.
  { intros _. left.
    destruct (_complete_audit _ _ _ _ _ _ _ _ _ _) as [st3 sent] eqn:Hcomplete.
    simpl. change st3 with (st3, sent).1. rewrite <- Hcomplete.
    eapply complete_audit_removes. simpl. apply lookup_insert_eq. }
  intros _. right. eexists.
  destruct (s_questions session !! _); simpl;
    rewrite lookup_insert_eq; split; reflexivity.
Qed.

(** X17: a timeout task armed for [(session_key, question_index)] changes
    the state only if a session is stored under the key, that session has
    exactly [question_index] answers and its game id is in
    [auditing_game_ids]; it then acts on the session stored under the key:
    it records the empty answer, writes the record with score 0, releases
    the game id, sets the cooldown and removes the session.  In the state
    it leaves when it has acted, every timeout under the key and every
    answer of the requester finds no session and changes nothing; and in
    the state an answer call leaves when it has changed anything, a
    timeout tagged with the number of answers before the call changes
    nothing. *)
Theorem timeout_acts_on_stored_session
    (now : Q) (st : State) (key : string) (user_id group_id : Z)
    (question_index : nat) :
  let st' :=
    _check_question_timeout cfg now st key user_id group_id question_index in
  (st' <> st ->
   exists session,
     audit_sessions st !! key = Some session
     /\ length (s_answers session) = question_index
     /\ s_game_id session ∈ auditing_game_ids st)
  /\ (forall session,
        audit_sessions st !! key = Some session ->
        length (s_answers session) = question_index ->
        s_game_id session ∈ auditing_game_ids st ->
        audit_sessions st' = delete key (audit_sessions st)
        /\ auditing_game_ids st'
           = auditing_game_ids st ∖ {[s_game_id session]}
        /\ audit_records st' !! Py.str user_id
           = Some (default [] (audit_records st !! Py.str user_id)
                   ++ [timeout_record now session user_id group_id
                         question_index])%list
        /\ cooldown st' !! cooldown_key user_id (s_game_id session)
           = Some (now + inject_Z (cooldown_seconds cfg))%Q
        /\ whitelist st' = whitelist st)
  /\ (st' <> st ->
      forall now2 user_id2 group_id2 question_index2,
        _check_question_timeout cfg now2 st' key user_id2 group_id2
          question_index2 = st')
  /\ (st' <> st -> key = session_key user_id group_id ->
      forall now2 command_text ai_available ai,
        handle_answer_command cfg py_format now2 st' user_id group_id
          command_text ai_available ai = (st', Some MsgNoSession, []))
  /\ (forall now1 command_text ai_available ai,
        key = session_key user_id group_id ->
        (exists session,
           audit_sessions st !! key = Some session
           /\ length (s_answers session) = question_index) ->
        let st1 := (handle_answer_command cfg py_format now1 st user_id
                      group_id command_text ai_available ai).1.1 in
        st1 <> st ->
        forall now2,
          _check_question_timeout cfg now2 st1 key user_id group_id
            question_index = st1).
Proof.
  intros st'.
  assert (st' <> st -> audit_sessions st' !! key = None) as Hgone.
  { intros Hchanged.
    destruct (check_question_timeout_guarded _ _ _ _ _ _ Hchanged)
      as (session & Hsession & <- & Hin).
    subst st'. rewrite (check_question_timeout_fires _ _ _ _ _ _ Hsession Hin).
    destruct (handle_question_timeout_acts now st key user_id group_id session
                Hsession) as (-> & _).
    apply lookup_delete_eq. }
  repeat apply conj.
  - apply check_question_timeout_guarded.
  - intros session Hsession <- Hin. subst st'.
    rewrite (check_question_timeout_fires _ _ _ _ _ _ Hsession Hin).
    destruct (handle_question_timeout_acts now st key user_id group_id session
                Hsession) as (-> & -> & -> & -> & -> & _).
    rewrite !lookup_insert_eq. auto.
  - intros Hchanged now2 user_id2 group_id2 question_index2.
    apply check_question_timeout_absent. auto.
  - intros Hchanged -> now2 command_text ai_available ai.
    unfold handle_answer_command. rewrite (Hgone Hchanged). reflexivity.
  - intros now1 command_text ai_available ai -> (session & Hsession & <-)
      st1 Hchanged now2.
    destruct (handle_answer_command_progress now1 st user_id group_id
                command_text ai_available ai session Hsession Hchanged)
      as [Hnone | (session1 & Hsession1 & Hanswers)].
    + apply check_question_timeout_absent. exact Hnone.
    + apply (check_question_timeout_stale _ _ _ _ _ _ session1 Hsession1).
      rewrite Hanswers, length_app. simpl. lia.
Qed.

End Timeouts.

(** The third question runs out of time: "timed out at question 3", score
    0, cooldown set, game id released, nothing whitelisted. *)
Example third_question_times_out :
  let st := _check_question_timeout Scenario.cfg 300 Scenario.two_answered
              "1_100" 1 100 2 in
  audit_sessions st !! "1_100" = None
  /\ elements (auditing_game_ids st) = []
  /\ cooldown st !! "1_Alex" = Some (300 + inject_Z 3600)%Q
  /\ whitelist st !! "Alex" = None
  /\ map (fun r => (r_answers r, r_score r, r_passed r, r_state r))
       <$> audit_records st !! "1"
     = Some [(["first"; "second"; ""], 0, false, Some 3%nat)].
Proof. vm_compute. repeat split; reflexivity. Qed.

(** ** Outcomes of an interview *)



Example add_to_server_whitelist_outcomes :
  _add_to_server_whitelist Scenario.cfg Scenario.format_player "Alex"
    (Some Scenario.answering_rcon) = true
  /\ _add_to_server_whitelist Scenario.cfg Scenario.format_player "Alex"
       (Some Scenario.silent_rcon) = true
  /\ _add_to_server_whitelist Scenario.cfg Scenario.format_player "Bob"
       (Some Scenario.silent_rcon) = false
  /\ _add_to_server_whitelist Scenario.cfg Scenario.format_player "Alex"
       (Some Scenario.broken_rcon) = false
  /\ _add_to_server_whitelist Scenario.cfg Scenario.format_player "Alex"
       None = false.
Proof. repeat split; reflexivity. Qed.

(** The three answers arrive in time and the model says 22: the third
    answer completes the interview and "Alex" is whitelisted. *)
Example third_answer_passes :
  let st := (handle_answer_command Scenario.cfg Scenario.format_player 30
               Scenario.two_answered 1 100 "third" true Scenario.ai_22).1.1 in
  w_added_by <$> whitelist st !! "Alex" = Some ByAudit
  /\ audit_sessions st !! "1_100" = None
  /\ elements (auditing_game_ids st) = []
  /\ cooldown st !! "1_Alex" = None.
Proof. vm_compute. repeat split; reflexivity. Qed.




(** ** Starting an interview *)

Section Start.

Context (cfg : Config).

Lemma check_cooldown_frame now st user_id game_id :
  let st1 := (_check_cooldown now st user_id game_id).1 in
  audit_records st1 = audit_records st
  /\ whitelist st1 = whitelist st
  /\ audit_sessions st1 = audit_sessions st
  /\ timeout_tasks st1 = timeout_tasks st
  /\ auditing_game_ids st1 = auditing_game_ids st
  /\ tasks st1 = tasks st
  /\ prepares st1 = prepares st.
Proof.
  unfold _check_cooldown.
  destruct (cooldown st !! _) as [expiry|]; [|simpl; auto 10].
  destruct (Py.Qgtb _ _); simpl; auto 10.
Qed.

(** The cooldown check either leaves the state as it is or deletes the
    entry of the pair, which is then over. *)
Lemma check_cooldown_cases now st user_id game_id :
  let key := cooldown_key user_id game_id in
  let checked := _check_cooldown now st user_id game_id in
  0 <= checked.2
  /\ (checked.1 = st
      \/ checked.2 = 0
         /\ checked.1 = set_cooldown (delete key (cooldown st)) st
         /\ exists expiry,
              cooldown st !! key = Some expiry /\ (expiry - now <= 0)%Q).
Proof.
  unfold _check_cooldown.
  destruct (cooldown st !! _) as [expiry|] eqn:Hentry; [|simpl; auto with lia].
  unfold Py.Qgtb. destruct (Qle_bool (expiry - now) 0) eqn:Hover; simpl.
  - split; [lia|]. right. apply Qle_bool_iff in Hover. eauto 10.
  - split; [|auto]. unfold Py.int_of_Q.
    assert (~ (expiry - now <= 0)%Q) as Hpos
      by (rewrite <- Qle_bool_iff; congruence).
    apply Z.quot_pos; [|lia].
    destruct (expiry - now)%Q as [num den]. unfold Qle in Hpos. simpl in *. lia.
Qed.

Lemma check_cooldown_active now st user_id game_id :
  0 < (_check_cooldown now st user_id game_id).2 ->
  (_check_cooldown now st user_id game_id).1 = st.
Proof.
  intros Hpos.
  destruct (check_cooldown_cases now st user_id game_id)
    as (_ & [H | (H0 & _)]); [exact H | lia].
Qed.

(** The cooldown check refuses exactly when a whole second or more is
    left. *)
Lemma check_cooldown_positive now st user_id game_id :
  0 < (_check_cooldown now st user_id game_id).2
  <-> exists expiry,
        cooldown st !! cooldown_key user_id game_id = Some expiry
        /\ (1 <= expiry - now)%Q.
Proof.
  unfold _check_cooldown.
  destruct (cooldown st !! _) as [expiry|] eqn:Hentry; simpl.
  - assert (0 < Py.int_of_Q (expiry - now) <-> (1 <= expiry - now)%Q) as Hint.
    { unfold Py.int_of_Q, Qle. destruct (expiry - now)%Q as [num den]. simpl.
      destruct (Z.le_gt_cases 0 num) as [Hnum | Hnum].
      - rewrite Z.quot_div_nonneg by lia. split.
        + intros Hq. destruct (Z.lt_ge_cases num (Z.pos den)) as [Hlt | Hge];
            [|lia]. rewrite Z.div_small in Hq by lia. lia.
        + intros Hge. apply Z.div_str_pos. lia.
      - split; [|lia]. intros Hq.
        assert (0 <= (- num) ÷ Z.pos den) as Hopp by (apply Z.quot_pos; lia).
        rewrite Z.quot_opp_l in Hopp by lia. lia. }
    unfold Py.Qgtb. destruct (Qle_bool (expiry - now) 0) eqn:Hover; simpl.
    + split; [lia|]. intros (expiry' & [= <-] & Hone).
      apply Qle_bool_iff in Hover.
      assert (1 <= 0)%Q as Habs by (eapply Qle_trans; eassumption).
      unfold Qle in Habs. simpl in Habs. lia.
    + rewrite Hint. split; [eauto|]. intros (expiry' & [= <-] & Hone). exact Hone.
  - split; [lia|]. intros (expiry & Habs & _). discriminate Habs.
Qed.

Lemma user_whitelist_count_ext st1 st user_id :
  whitelist st1 = whitelist st ->
  _get_user_whitelist_count st1 user_id = _get_user_whitelist_count st user_id.
Proof. unfold _get_user_whitelist_count. intros ->. reflexivity. Qed.

(** The reply of [handle_whitelist_command] is the error of the first check
    that fails, the checks taken in the order of the source and read on the
    state before the call; when none fails it is the acknowledgement. *)
Lemma handle_whitelist_command_reply now st user_id group_id command_text :
  (handle_whitelist_command cfg now st user_id group_id command_text).2
  = match first_failure
            (checks_in_source_order cfg now st user_id group_id command_text)
    with
    | Some err => err
    | None => MsgAt user_id (MsgReceived (Py.strip command_text))
    end.
Proof.
  unfold handle_whitelist_command, checks_in_source_order, check_group_given,
    check_group_allowed, check_game_id_given, check_game_id_valid,
    check_no_cooldown, check_not_whitelisted, check_quota,
    check_not_being_audited, check_no_session, _is_in_whitelist.
  set (game_id := Py.strip command_text).
  simpl first_failure.
  destruct (group_id =? 0)%Z; [reflexivity|]. simpl.
  destruct (_is_group_allowed cfg group_id); [|reflexivity]. simpl.
  destruct (String.eqb game_id ""); [reflexivity|]. simpl.
  destruct (_is_valid_game_id game_id); [|reflexivity]. simpl.
  destruct (check_cooldown_frame now st user_id game_id)
    as (_ & Hw & Hs & _ & Hg & _).
  destruct (_check_cooldown now st user_id game_id)
    as [st1 cooldown_remaining]. simpl in *.
  destruct (0 <? cooldown_remaining)%Z; [reflexivity|]. simpl.
  rewrite (user_whitelist_count_ext st1 st user_id Hw), Hw, Hs, Hg.
  destruct (bool_decide (is_Some (whitelist st !! game_id))); [reflexivity|].
  simpl. rewrite Z.ltb_antisym.
  destruct (max_whitelist_per_qq cfg <=? _get_user_whitelist_count st user_id)%Z;
    [reflexivity|]. simpl.
  destruct (bool_decide (game_id ∈ auditing_game_ids st)); [reflexivity|].
  simpl.
  destruct (bool_decide (is_Some (audit_sessions st !! _))); reflexivity.
Qed.

(** The state after [handle_whitelist_command], by the reply. *)
Lemma handle_whitelist_command_state now st user_id group_id command_text :
  let game_id := Py.strip command_text in
  let result :=
    handle_whitelist_command cfg now st user_id group_id command_text in
  let checked := _check_cooldown now st user_id game_id in
  (result.1 = st
   /\ (result.2 = MsgNeedGroup \/ result.2 = MsgGroupNotAllowed
       \/ result.2 = MsgEmptyGameId \/ result.2 = MsgBadGameId
       \/ exists hours minutes, result.2 = MsgCooldown hours minutes))
  \/ (result.1 = checked.1
      /\ (result.2 = MsgAlreadyWhitelisted game_id
          \/ (exists count max_allowed, result.2 = MsgQuota count max_allowed)
          \/ result.2 = MsgBeingAudited game_id
          \/ result.2 = MsgSessionActive))
  \/ (result.2 = MsgAt user_id (MsgReceived game_id)
      /\ result.1
         = set_prepares
             (prepares checked.1
              ++ [{| p_session_key := session_key user_id group_id;
                     p_user_id := user_id; p_group_id := group_id;
                     p_game_id := game_id; p_pending := true |}])%list
             checked.1).
Proof.
  intros game_id. unfold handle_whitelist_command. fold game_id. cbv zeta.
  destruct (group_id =? 0)%Z; [simpl; auto 10|].
  destruct (_is_group_allowed cfg group_id); simpl; [|auto 10].
  destruct (String.eqb game_id ""); [simpl; auto 10|].
  destruct (_is_valid_game_id game_id); simpl; [|auto 10].
  pose proof (check_cooldown_active now st user_id game_id) as Hactive.
  destruct (_check_cooldown now st user_id game_id)
    as [st1 cooldown_remaining]. simpl in *.
  destruct (0 <? cooldown_remaining)%Z eqn:Hpos.
  { apply Z.ltb_lt in Hpos. simpl. left. split; [auto|eauto 10]. }
  destruct (_is_in_whitelist st1 game_id); [simpl; auto 10|].
  destruct (_ <=? _)%Z; [simpl; right; left; eauto 10|].
  destruct (bool_decide (game_id ∈ _)); [simpl; auto 10|].
  destruct (bool_decide (is_Some _)); simpl; auto 10.
Qed.

(** A request that is not acknowledged creates no task and no session. *)
Lemma refused_start_frame now st user_id group_id command_text :
  (handle_whitelist_command cfg now st user_id group_id command_text).2
  <> MsgAt user_id (MsgReceived (Py.strip command_text)) ->
  audit_sessions
    (handle_whitelist_command cfg now st user_id group_id command_text).1
  = audit_sessions st
  /\ prepares
       (handle_whitelist_command cfg now st user_id group_id command_text).1
     = prepares st.
Proof.
  intros Hrefused.
  destruct (handle_whitelist_command_state now st user_id group_id command_text)
    as [(-> & _) | [(-> & _) | (Hok & _)]]; [auto| |contradiction].
  destruct (check_cooldown_frame now st user_id (Py.strip command_text))
    as (_ & _ & -> & _ & _ & _ & ->). auto.
Qed.

(** Member 1 has an interview running and has reached the quota: the
    specified order makes the running interview the first failure, the
    handler answers with the quota (C4 as stated fails). *)
Lemma start_order_differs :
  first_failure
    (checks_in_specified_order Scenario.cfg 10 Scenario.interviewing_at_quota
       1 100 "Carol") = Some MsgSessionActive
  /\ (handle_whitelist_command Scenario.cfg 10 Scenario.interviewing_at_quota
        1 100 "Carol").2 = MsgQuota 1 1.
Proof. split; vm_compute; reflexivity. Qed.

(** C4, amended: the checks of a start request are made in the order
    channel given, channel authorized, identifier given, identifier valid,
    no cooldown of a whole second or more left for (requester, identifier)
    -- else the reply carries the time left --, identifier not whitelisted,
    requester below the quota, identifier not in [auditing_game_ids],
    requester without a session on the channel; the reply is the error of
    the first check that fails. *)
Theorem start_checks_in_source_order
    (now : Q) (st : State) (user_id group_id : Z) (command_text : string) :
  (handle_whitelist_command cfg now st user_id group_id command_text).2
  = match first_failure
            (checks_in_source_order cfg now st user_id group_id command_text)
    with
    | Some err => err
    | None => MsgAt user_id (MsgReceived (Py.strip command_text))
    end.
Proof. apply handle_whitelist_command_reply. Qed.

(** Member 1 is at the quota and the cooldown for "Alex" is over: the
    start request is refused and the ledger loses the entry (C9 as stated
    fails). *)
Lemma failed_start_deletes_cooldown :
  let result := handle_whitelist_command Scenario.cfg 5000
                  Scenario.failed_then_added 1 100 "Alex" in
  result.2 = MsgQuota 1 1
  /\ is_Some (cooldown Scenario.failed_then_added !! "1_Alex")
  /\ cooldown result.1 !! "1_Alex" = None
  /\ result.1 <> Scenario.failed_then_added.
Proof.
  cbv zeta.
  assert (is_Some (cooldown Scenario.failed_then_added !! "1_Alex")) as Hbefore
    by (vm_compute; eauto).
  assert (cooldown (handle_whitelist_command Scenario.cfg 5000
                      Scenario.failed_then_added 1 100 "Alex").1 !! "1_Alex"
          = None) as Hafter by (vm_compute; reflexivity).
  split; [vm_compute; reflexivity|].
  split; [exact Hbefore|]. split; [exact Hafter|].
  intros Heq. rewrite Heq in Hafter. rewrite Hafter in Hbefore.
  clear Heq. destruct Hbefore as [expiry Hentry]. discriminate Hentry.
Qed.

(** C9, amended: a start request that is refused leaves the sessions, the
    lock set, the whitelist, the audit records and the tasks as they were;
    of the cooldown ledger it deletes at most the entry of (requester,
    identifier), and only one that is over; a request refused for the
    channel, for the identifier or for a running cooldown leaves the whole
    state as it was. *)
Theorem refused_start_keeps_state
    (now : Q) (st : State) (user_id group_id : Z) (command_text : string) :
  let game_id := Py.strip command_text in
  let key := cooldown_key user_id game_id in
  let result :=
    handle_whitelist_command cfg now st user_id group_id command_text in
  result.2 <> MsgAt user_id (MsgReceived game_id) ->
  audit_records result.1 = audit_records st
  /\ whitelist result.1 = whitelist st
  /\ audit_sessions result.1 = audit_sessions st
  /\ timeout_tasks result.1 = timeout_tasks st
  /\ auditing_game_ids result.1 = auditing_game_ids st
  /\ tasks result.1 = tasks st
  /\ prepares result.1 = prepares st
  /\ (cooldown result.1 = cooldown st
      \/ cooldown result.1 = delete key (cooldown st)
         /\ exists expiry,
              cooldown st !! key = Some expiry /\ (expiry - now <= 0)%Q)
  /\ (result.2 = MsgNeedGroup \/ result.2 = MsgGroupNotAllowed
      \/ result.2 = MsgEmptyGameId \/ result.2 = MsgBadGameId
      \/ (exists hours minutes, result.2 = MsgCooldown hours minutes) ->
      result.1 = st).
Proof.
  intros game_id key result Hrefused.
  pose proof (handle_whitelist_command_state now st user_id group_id
                command_text) as Hcases.
  cbv zeta in Hcases. fold game_id in Hcases. fold result in Hcases.
  destruct Hcases as [(Hst & _) | [(Hst & Hlate) | (Hok & _)]].
  - rewrite Hst. auto 15.
  - destruct (check_cooldown_frame now st user_id game_id)
      as (Hr & Hw & Hs & Ht & Hg & Hk & Hp).
    rewrite Hst, Hr, Hw, Hs, Ht, Hg, Hk, Hp. repeat (split; [reflexivity|]).
    split.
    + destruct (check_cooldown_cases now st user_id game_id)
        as (_ & [-> | (_ & -> & Hover)]); [auto|].
      right. simpl. auto.
    + intros Hearly.
      destruct Hlate as [H | [(? & ? & H) | [H | H]]]; rewrite H in Hearly;
        destruct Hearly as [? | [? | [? | [? | (? & ? & ?)]]]]; discriminate.
  - contradiction.
Qed.

(** C8: a requester whose count of whitelist entries has reached the quota
    cannot start an interview -- the request is not acknowledged and no
    preparation task is created --, whoever wrote the entries (the count
    does not look at [added_by]); when the request passes the checks made
    before the quota check, the reply is the quota error. *)
Theorem quota_blocks_start
    (now : Q) (st : State) (user_id group_id : Z) (command_text : string) :
  max_whitelist_per_qq cfg <= _get_user_whitelist_count st user_id ->
  let game_id := Py.strip command_text in
  let result :=
    handle_whitelist_command cfg now st user_id group_id command_text in
  result.2 <> MsgAt user_id (MsgReceived game_id)
  /\ prepares result.1 = prepares st
  /\ audit_sessions result.1 = audit_sessions st
  /\ (group_id <> 0 -> _is_group_allowed cfg group_id = true ->
      _is_valid_game_id game_id = true ->
      (_check_cooldown now st user_id game_id).2 <= 0 ->
      whitelist st !! game_id = None ->
      result.2 = MsgQuota (_get_user_whitelist_count st user_id)
                   (max_whitelist_per_qq cfg)).
Proof.
  intros Hquota game_id result.
  assert (result.2 <> MsgAt user_id (MsgReceived game_id)) as Hrefused.
  { subst result. rewrite handle_whitelist_command_reply.
    unfold checks_in_source_order, check_group_given, check_group_allowed,
      check_game_id_given, check_game_id_valid, check_no_cooldown,
      check_not_whitelisted, check_quota. simpl first_failure.
    apply Z.ltb_ge in Hquota. rewrite Hquota.
    repeat match goal with
           | |- context [if ?b then _ else _] => destruct b
           end; discriminate. }
  split; [exact Hrefused|].
  destruct (refused_start_frame now st user_id group_id command_text Hrefused)
    as (Hs & Hp).
  split; [exact Hp|]. split; [exact Hs|].
  intros Hgroup Hallowed Hvalid Hcool Hnew.
  subst result. rewrite handle_whitelist_command_reply.
  unfold checks_in_source_order, check_group_given, check_group_allowed,
    check_game_id_given, check_game_id_valid, check_no_cooldown,
    check_not_whitelisted, check_quota, _is_in_whitelist.
  fold game_id. simpl first_failure.
  apply Z.eqb_neq in Hgroup. rewrite Hgroup, Hallowed, Hvalid. simpl.
  destruct (String.eqb game_id "") eqn:Hempty.
  { apply String.eqb_eq in Hempty. rewrite Hempty in Hvalid. discriminate. }
  simpl. apply Z.ltb_ge in Hcool. rewrite Hcool. simpl.
  rewrite Hnew, bool_decide_eq_false_2 by (intros [? ?]; discriminate). simpl.
  apply Z.ltb_ge in Hquota. rewrite Hquota. reflexivity.
Qed.

End Start.

Lemma refused_start_witness :
  let result := handle_whitelist_command Scenario.cfg 5000
                  Scenario.failed_then_added 1 100 "Alex" in
  whitelist result.1 = whitelist Scenario.failed_then_added
  /\ audit_sessions result.1 = audit_sessions Scenario.failed_then_added.
Proof.
  assert ((handle_whitelist_command Scenario.cfg 5000
             Scenario.failed_then_added 1 100 "Alex").2
          <> MsgAt 1 (MsgReceived (Py.strip "Alex"))) as Hrefused
    by (vm_compute; discriminate).
  destruct (refused_start_keeps_state Scenario.cfg 5000
              Scenario.failed_then_added 1 100 "Alex" Hrefused)
    as (_ & Hw & Hs & _).
  split; assumption.
Defined.

Lemma quota_blocks_start_witness :
  w_added_by <$> whitelist Scenario.failed_then_added !! "Bob" = Some ByAdmin
  /\ (handle_whitelist_command Scenario.cfg 5000 Scenario.failed_then_added
        1 100 "Carol").2 = MsgQuota 1 1.
Proof.
  split; [vm_compute; reflexivity|].
  assert (max_whitelist_per_qq Scenario.cfg
          <= _get_user_whitelist_count Scenario.failed_then_added 1) as Hquota
    by (vm_compute; discriminate).
  destruct (quota_blocks_start Scenario.cfg 5000 Scenario.failed_then_added
              1 100 "Carol" Hquota) as (_ & _ & _ & Hreply).
  rewrite Hreply.
  - vm_compute. reflexivity.
  - discriminate.
  - reflexivity.
  - reflexivity.
  - vm_compute. discriminate.
  - vm_compute. reflexivity.
Defined.

(** ** The stored question index *)

Section StoredIndex.

Context (cfg : Config) (py_format : string -> string -> Outcome string).

Lemma complete_audit_sessions now st key user_id group_id rcon_client
    ai_available ai session :
  audit_sessions st !! key = Some session ->
  audit_sessions (_complete_audit cfg py_format now st key user_id group_id
                    rcon_client ai_available ai).1
  = delete key (audit_sessions st).
Proof.
  intros Hsession.
  destruct (Z.le_gt_cases (pass_score cfg)
              (_evaluate_answers cfg ai_available ai
                 (s_questions session) (s_answers session))) as [Hp | Hf].
  - apply (complete_audit_pass cfg py_format now st key user_id group_id
             rcon_client ai_available ai session Hsession Hp).
  - apply (complete_audit_fail cfg py_format now st key user_id group_id
             rcon_client ai_available ai session Hsession Hf).
Qed.

Lemma stored_index_zero_delete st st' key :
  audit_sessions st' = delete key (audit_sessions st) ->
  stored_index_zero st -> stored_index_zero st'.
Proof.
  intros Heq Hinv k session. rewrite Heq. intros Hk.
  apply lookup_delete_Some in Hk as [_ Hk]. eauto.
Qed.

Lemma stored_index_zero_same st st' :
  audit_sessions st' = audit_sessions st ->
  stored_index_zero st -> stored_index_zero st'.
Proof. intros Heq Hinv k session. rewrite Heq. apply Hinv. Qed.

Lemma stored_index_zero_insert st st' key session :
  audit_sessions st' = <[key := session]> (audit_sessions st) ->
  s_current_question_index session = 0%nat ->
  stored_index_zero st -> stored_index_zero st'.
Proof.
  intros Heq Hzero Hinv k s. rewrite Heq. intros Hk.
  apply lookup_insert_Some in Hk as [[_ <-] | [_ Hk]]; eauto.
Qed.

Lemma handle_question_timeout_index now st key user_id group_id question_index :
  stored_index_zero st ->
  stored_index_zero
    (_handle_question_timeout cfg now st key user_id group_id question_index).
Proof.
  intros Hinv.
  destruct (audit_sessions st !! key) as [session|] eqn:Hsession.
  - destruct (decide (length (s_answers session) = question_index)) as [<- | Hne].
    + eapply stored_index_zero_delete; [|exact Hinv].
      apply (handle_question_timeout_acts cfg now st key user_id group_id
               session Hsession).
    + unfold _handle_question_timeout. rewrite Hsession.
      apply Nat.eqb_neq in Hne. rewrite Hne. exact Hinv.
  - unfold _handle_question_timeout. rewrite Hsession. exact Hinv.
Qed.

Lemma check_question_timeout_index now st key user_id group_id question_index :
  stored_index_zero st ->
  stored_index_zero
    (_check_question_timeout cfg now st key user_id group_id question_index).
Proof.
  intros Hinv. unfold _check_question_timeout.
  destruct (audit_sessions st !! key) as [session|]; [|exact Hinv].
  destruct (negb _); [exact Hinv|].
  destruct (negb _); [exact Hinv|].
  apply handle_question_timeout_index. exact Hinv.
Qed.

Lemma cleanup_session_index st key :
  stored_index_zero st -> stored_index_zero (cleanup_session st key).
Proof.
  intros Hinv. unfold cleanup_session.
  destruct (audit_sessions st !! key) as [session|]; [|exact Hinv].
  eapply stored_index_zero_delete; [|exact Hinv]. simpl.
  destruct (cancel_timeout_task_frame (release_game_id st (s_game_id session)) key)
    as (_ & _ & _ & -> & _).
  destruct (release_game_id_frame st (s_game_id session))
    as (_ & _ & _ & -> & _). reflexivity.
Qed.

Lemma cleanup_expired_sessions_index now st :
  stored_index_zero st -> stored_index_zero (_cleanup_expired_sessions now st).
Proof.
  unfold _cleanup_expired_sessions.
  generalize (expired_sessions now st) as keys. intros keys. revert st.
  induction keys as [|key keys IH]; intros st Hinv; simpl; [exact Hinv|].
  apply IH, cleanup_session_index, Hinv.
Qed.

Lemma start_timeout_task_sessions now st key user_id group_id index :
  audit_sessions (start_timeout_task now st key user_id group_id index)
  = audit_sessions st.
Proof. reflexivity. Qed.

Lemma prepare_index now st key user_id group_id game_id questions :
  stored_index_zero st ->
  stored_index_zero
    (_prepare_and_send_first_question cfg now st key user_id group_id game_id
       questions).1.
Proof.
  intros Hinv. unfold _prepare_and_send_first_question.
  destruct questions as [[|first_question rest]|]; try exact Hinv.
  simpl. eapply stored_index_zero_insert; [| |exact Hinv]; reflexivity.
Qed.

Lemma handle_answer_command_index now st user_id group_id command_text
    ai_available ai :
  stored_index_zero st ->
  stored_index_zero
    (handle_answer_command cfg py_format now st user_id group_id command_text
       ai_available ai).1.1.
Proof.
  intros Hinv. unfold handle_answer_command.
  set (key := session_key user_id group_id).
  destruct (audit_sessions st !! key) as [session|] eqn:Hsession;
    [|exact Hinv].
  destruct (String.eqb _ _); [exact Hinv|].
  destruct (_ <? _)%nat; [exact Hinv|].
  destruct (Py.Qgtb _ _); [apply handle_question_timeout_index, Hinv|].
  destruct (cancel_timeout_task_frame st key) as (_ & _ & _ & Hs & _).
  set (session1 := set_last_activity_time now _).
  set (st2 := set_audit_sessions _ (cancel_timeout_task st key)).
  assert (stored_index_zero st2) as Hinv2.
  { eapply stored_index_zero_insert; [subst st2; simpl; rewrite Hs; reflexivity
                                     | simpl; eauto | exact Hinv]. }
  destruct (_ <=? _)%Z.
  - destruct (_complete_audit _ _ _ _ _ _ _ _ _ _) as [st3 sent] eqn:Hcomplete.
    simpl. change st3 with (st3, sent).1. rewrite <- Hcomplete.
    eapply stored_index_zero_delete; [|exact Hinv2].
    apply complete_audit_sessions with (session := session1).
    subst st2. simpl. apply lookup_insert_eq.
  - set (session2 := set_current_question_start_time now session1).
    assert (stored_index_zero
              (set_audit_sessions (<[key := session2]> (audit_sessions st2)) st2))
      as Hinv3.
    { eapply stored_index_zero_insert; [reflexivity | simpl; eauto | exact Hinv2]. }
    destruct (s_questions session2 !! _); simpl; [|exact Hinv3].
    eapply stored_index_zero_same; [|exact Hinv3]. reflexivity.
Qed.

Lemma handle_whitelist_command_index now st user_id group_id command_text :
  stored_index_zero st ->
  stored_index_zero
    (handle_whitelist_command cfg now st user_id group_id command_text).1.
Proof.
  intros Hinv.
  destruct (check_cooldown_frame now st user_id (Py.strip command_text))
    as (_ & _ & Hs & _).
  destruct (handle_whitelist_command_state cfg now st user_id group_id
              command_text) as [(-> & _) | [(-> & _) | (_ & ->)]].
  - exact Hinv.
  - eapply stored_index_zero_same; [exact Hs | exact Hinv].
  - eapply stored_index_zero_same; [exact Hs | exact Hinv].
Qed.

Lemma step_index st e :
  stored_index_zero st -> stored_index_zero (step cfg py_format st e).1.
Proof.
  intros Hinv. destruct e as [now u g text | now id questions
                             | now u g text ai_available ai | now id | now
                             | now u g game_id rcon_client]; simpl.
  - pose proof (handle_whitelist_command_index now st u g text Hinv) as H.
    destruct (handle_whitelist_command cfg now st u g text). exact H.
  - destruct (prepares st !! id) as [p|]; [|exact Hinv].
    destruct (p_pending p); [|exact Hinv].
    set (st1 := set_prepares _ st).
    pose proof (prepare_index now st1 (p_session_key p) (p_user_id p)
                  (p_group_id p) (p_game_id p) questions) as H.
    destruct (_prepare_and_send_first_question _ _ _ _ _ _ _ _).
    apply H. eapply stored_index_zero_same; [|exact Hinv]. reflexivity.
  - pose proof (handle_answer_command_index now st u g text ai_available ai
                  Hinv) as H.
    destruct (handle_answer_command _ _ _ _ _ _ _ _ _) as [[st1 m] sent].
    exact H.
  - destruct (tasks st !! id) as [t|]; [|exact Hinv].
    destruct (t_status t); try exact Hinv.
    match goal with
    | |- context [if ?ready then _ else _] => destruct ready
    end; [|exact Hinv]. simpl.
    eapply stored_index_zero_same; [|apply check_question_timeout_index, Hinv].
    reflexivity.
  - apply cleanup_expired_sessions_index, Hinv.
  - unfold handle_admin_add.
    destruct (_add_to_server_whitelist _ _ _ _); simpl;
      (eapply stored_index_zero_same; [|exact Hinv]); reflexivity.
Qed.

Lemma run_index events : forall st,
  stored_index_zero st -> stored_index_zero (run cfg py_format st events).1.
Proof.
  induction events as [|e events IH]; intros st Hinv; simpl; [exact Hinv|].
  pose proof (step_index st e Hinv) as Hstep.
  destruct (step cfg py_format st e) as [st1 out1].
  specialize (IH st1 Hstep).
  destruct (run cfg py_format st1 events) as [st2 out2]. exact IH.
Qed.

(** C5, amended: the stored index is 0 when the session is created and no
    transition ever writes it: in every reachable state every live session
    has [current_question_index = 0], so [len(answers)] equals it exactly
    as long as no answer has been recorded. *)
Theorem stored_index_stays_zero (st : State) (key : string) (session : Session) :
  reachable cfg py_format st ->
  audit_sessions st !! key = Some session ->
  s_current_question_index session = 0%nat
  /\ (length (s_answers session) = s_current_question_index session
      <-> s_answers session = []).
Proof.
  intros (records & wl & cd & events & <-) Hsession.
  assert (s_current_question_index session = 0%nat) as Hzero.
  { eapply (run_index events); [|exact Hsession].
    intros k s Hk. simpl in Hk. rewrite lookup_empty in Hk. discriminate. }
  split; [exact Hzero|]. rewrite Hzero. split.
  - apply length_zero_iff_nil.
  - intros ->. reflexivity.
Qed.

End StoredIndex.

(** After the first accepted answer the session has one answer and its
    stored index is still 0 (C5 as stated fails). *)
Lemma stored_index_lags_behind :
  let st := (handle_answer_command Scenario.cfg Scenario.format_player 10
               Scenario.interviewing 1 100 "first" true Scenario.ai_22).1.1 in
  exists session,
    audit_sessions st !! session_key 1 100 = Some session
    /\ length (s_answers session) = 1%nat
    /\ s_current_question_index session = 0%nat
    /\ length (s_answers session) <> s_current_question_index session.
Proof.
  cbv zeta. eexists. split; [vm_compute; reflexivity|].
  simpl. repeat split; discriminate.
Qed.

Lemma stored_index_witness :
  exists session,
    audit_sessions Scenario.two_answered !! "1_100" = Some session
    /\ s_answers session = ["first"; "second"]
    /\ s_current_question_index session = 0%nat.
Proof.
  assert (audit_sessions Scenario.two_answered !! "1_100"
          = Some {| s_user_id := 1; s_game_id := "Alex"; s_group_id := 100;
                    s_questions := Scenario.questions;
                    s_answers := ["first"; "second"];
                    s_current_question_index := 0; s_start_time := 1;
                    s_last_activity_time := 20;
                    s_current_question_start_time := 20 |}) as Hsession
    by (vm_compute; reflexivity).
  assert (reachable Scenario.cfg Scenario.format_player Scenario.two_answered)
    as Hreach.
  { exists ∅, ∅, ∅,
      [EStart 0 1 100 "Alex"; EPrepare 1 0%nat (Some Scenario.questions);
       EAnswer 10 1 100 "first" true Scenario.ai_22;
       EAnswer 20 1 100 "second" true Scenario.ai_22].
    vm_compute. reflexivity. }
  eexists. split; [exact Hsession|]. split; [reflexivity|].
  apply (stored_index_stays_zero Scenario.cfg Scenario.format_player
           Scenario.two_answered "1_100" _ Hreach Hsession).
Defined.

(** ** The identifier lock *)

(** Asked one after the other, the second request for "Alex" is refused. *)
Example sequential_starts_second_refused :
  (run Scenario.cfg Scenario.format_player init Scenario.sequential_starts).2
  = [Return (Some (MsgAt 1 (MsgReceived "Alex")));
     Send 100 (MsgAt 1 (MsgFirstQuestion 3 "Q1" 3));
     Return (Some (MsgBeingAudited "Alex"))].
Proof. vm_compute. reflexivity. Qed.

(** C1 (the code departs from it): when two start requests for one
    identifier are both handled before either preparation task has
    inserted the identifier into [auditing_game_ids], both are
    acknowledged, both receive the first question, and two live sessions
    hold the same identifier. *)
Theorem interleaved_starts_both_succeed :
  let result := run Scenario.cfg Scenario.format_player init
                  Scenario.interleaved_starts in
  result.2 = [Return (Some (MsgAt 1 (MsgReceived "Alex")));
              Return (Some (MsgAt 2 (MsgReceived "Alex")));
              Send 100 (MsgAt 1 (MsgFirstQuestion 3 "Q1" 3));
              Send 100 (MsgAt 2 (MsgFirstQuestion 3 "Q1" 3))]
  /\ s_game_id <$> audit_sessions result.1 !! session_key 1 100 = Some "Alex"
  /\ s_game_id <$> audit_sessions result.1 !! session_key 2 100 = Some "Alex"
  /\ session_key 1 100 <> session_key 2 100
  /\ elements (auditing_game_ids result.1) = ["Alex"].
Proof.
  cbv zeta. split; [vm_compute; reflexivity|].
  split; [vm_compute; reflexivity|]. split; [vm_compute; reflexivity|].
  split; [vm_compute; discriminate|]. vm_compute. reflexivity.
Qed.

(** What follows from it: once the first of the two sessions has timed out
    and released the identifier, the timeout task of the second finds the
    identifier gone from [auditing_game_ids] and does nothing. *)
Example second_session_never_times_out :
  let st := (run Scenario.cfg Scenario.format_player init
               (Scenario.interleaved_starts ++ [ETimeout 181 0%nat])%list).1 in
  audit_sessions st !! "1_100" = None
  /\ is_Some (audit_sessions st !! "2_100")
  /\ elements (auditing_game_ids st) = []
  /\ (step Scenario.cfg Scenario.format_player st (ETimeout 181 1%nat)).1
     = set_tasks (alter (set_status Done) 1%nat (tasks st)) st.
Proof.
  cbv zeta. split; [vm_compute; reflexivity|].
  split; [vm_compute; eauto|]. split; [vm_compute; reflexivity|].
  vm_compute. reflexivity.
Qed.

(** ** A timeout armed for an overwritten session *)

(** C2 (the code departs from it): member 1 asks for "Alex" and for "Bob"
    before either preparation task has its questions.  The task for
    "Alex" stores a session under the key of member 1 and arms a timeout
    at time 1; the task for "Bob" overwrites that session and the
    registered task at time 101, without cancelling the first timeout and
    without releasing "Alex".  At time 181 the timeout armed for the
    session of "Alex" passes the three checks on the session of "Bob" and
    ends it, 80 seconds after its question was sent and 100 seconds before
    its own timeout, which then finds nothing to do; "Alex" stays in
    [auditing_game_ids] with no session left to release it, and a later
    request for it, by another member, is refused. *)
Theorem stale_timer_ends_later_session :
  let before :=
    (run Scenario.cfg Scenario.format_player init
       Scenario.overwritten_starts).1 in
  let after :=
    (step Scenario.cfg Scenario.format_player before (ETimeout 181 0%nat)).1 in
  tasks before !! 0%nat
  = Some {| t_session_key := session_key 1 100; t_user_id := 1;
            t_group_id := 100; t_question_index := 0; t_created := 1;
            t_status := Sleeping |}
  /\ timeout_tasks before !! session_key 1 100 = Some 1%nat
  /\ (fun session => (s_game_id session, s_answers session,
                      s_current_question_start_time session))
     <$> audit_sessions before !! session_key 1 100
     = Some ("Bob", [], 101%Q)
  /\ elements (auditing_game_ids before) = ["Alex"; "Bob"]
  /\ map_to_list (audit_sessions after) = []
  /\ map (fun r => (r_game_id r, r_answers r, r_score r, r_state r))
       <$> audit_records after !! "1"
     = Some [("Bob", [""], 0, Some 1%nat)]
  /\ cooldown after !! cooldown_key 1 "Bob" = Some (181 + inject_Z 3600)%Q
  /\ cooldown after !! cooldown_key 1 "Alex" = None
  /\ elements (auditing_game_ids after) = ["Alex"]
  /\ (step Scenario.cfg Scenario.format_player after (ETimeout 281 1%nat)).1
     = set_tasks (alter (set_status Done) 1%nat (tasks after)) after
  /\ (handle_whitelist_command Scenario.cfg 4000 after 2 100 "Alex").2
     = MsgBeingAudited "Alex".
Proof.
  cbv zeta. repeat (split; [vm_compute; reflexivity|]).
  vm_compute. reflexivity.
Qed.

(** * Further properties of the plugin *)

(** ** Keys *)

Lemma pretty_N_char_not_underscore (d : N) :
  not_underscore (pretty_N_char d) = true.
Proof. unfold pretty_N_char. repeat case_match; reflexivity. Qed.

Lemma pretty_N_go_not_underscore (x : N) (s : string) :
  Py.all_chars not_underscore s = true ->
  Py.all_chars not_underscore (pretty_N_go x s) = true.
Proof.
  revert s. induction (N.lt_wf_0 x) as [x _ IH]. intros s Hs.
  destruct (decide (x = 0)%N) as [-> | Hx].
  - rewrite pretty_N_go_0. exact Hs.
  - rewrite pretty_N_go_step by lia. apply IH.
    + apply N.div_lt; lia.
    + simpl. rewrite pretty_N_char_not_underscore. exact Hs.
Qed.

Lemma str_not_underscore (n : Z) :
  Py.all_chars not_underscore (Py.str n) = true.
Proof.
  unfold Py.str, pretty, pretty_Z.
  assert (forall p : positive,
            Py.all_chars not_underscore (pretty p) = true) as Hpos.
  { intros p. unfold pretty, pretty_positive, pretty, pretty_N.
    case_decide; [reflexivity|]. apply pretty_N_go_not_underscore. reflexivity. }
  destruct n as [|p|p]; [reflexivity | apply Hpos |].
  simpl. apply Hpos.
Qed.

(** Two texts split at their first underscore. *)
Lemma split_at_underscore (a b u v : string) :
  Py.all_chars not_underscore a = true ->
  Py.all_chars not_underscore b = true ->
  String.append a (String "_" u) = String.append b (String "_" v) ->
  a = b /\ u = v.
Proof.
  revert b. induction a as [|c a IH]; intros [|d b] Ha Hb Heq; simpl in *.
  - injection Heq as Heq. auto.
  - injection Heq as Hd _. subst d. discriminate Hb.
  - injection Heq as Hc _. subst c. discriminate Ha.
  - injection Heq as Hc Heq. subst d.
    apply andb_true_iff in Ha as [_ Ha]. apply andb_true_iff in Hb as [_ Hb].
    destruct (IH b Ha Hb Heq) as [-> ->]. auto.
Qed.

(** X1: the keys are injective: two sessions share a key only if they have
    the same requester and the same group, and two cooldown entries only
    if they have the same requester and the same game id. *)
Theorem keys_injective (user_id user_id' group_id group_id' : Z)
    (game_id game_id' : string) :
  (session_key user_id group_id = session_key user_id' group_id' ->
   user_id = user_id' /\ group_id = group_id')
  /\ (cooldown_key user_id game_id = cooldown_key user_id' game_id' ->
      user_id = user_id' /\ game_id = game_id').
Proof.
  unfold session_key, cooldown_key. split; intros Heq.
  - apply split_at_underscore in Heq as [Hu Hg];
      try apply str_not_underscore.
    split; eapply (inj pretty); eassumption.
  - apply split_at_underscore in Heq as [Hu Hg];
      try apply str_not_underscore.
    split; [eapply (inj pretty); eassumption | exact Hg].
Qed.

(** ** Acknowledged start requests *)

Lemma rstrip_no_final_newline (s : string) : Py.chop_newline (Py.rstrip s) = None.
Proof.
  induction s as [|c s IH]; [reflexivity|]. simpl.
  destruct (Py.rstrip s) as [|d r] eqn:Hr.
  - destruct (Py.isspace c) eqn:Hc; [reflexivity|]. simpl.
    destruct (Py.code c =? 10)%nat eqn:H10; [|reflexivity].
    apply Nat.eqb_eq in H10. unfold Py.isspace in Hc. rewrite H10 in Hc.
    discriminate Hc.
  - change (Py.chop_newline (String c (String d r)))
      with (option_map (String c) (Py.chop_newline (String d r))).
    rewrite IH. reflexivity.
Qed.

Lemma valid_stripped (command_text : string) :
  _is_valid_game_id (Py.strip command_text)
  = token_3_16 (Py.strip command_text).
Proof.
  unfold _is_valid_game_id, Py.strip. rewrite rstrip_no_final_newline.
  apply orb_false_r.
Qed.

(** X2: for the stripped text of a command, [_is_valid_game_id] holds
    exactly of the texts of 3 to 16 characters that are all letters,
    digits or underscores: the match of [$] before a final line feed
    never applies to it. *)
Theorem valid_game_id_is_token (command_text : string) :
  let game_id := Py.strip command_text in
  _is_valid_game_id game_id = true
  <-> Py.all_chars Py.is_word_char game_id = true
      /\ (3 <= String.length game_id <= 16)%nat.
Proof.
  cbv zeta. rewrite valid_stripped. unfold token_3_16.
  rewrite !andb_true_iff, !Nat.leb_le. tauto.
Qed.

Example valid_game_id_unstripped :
  _is_valid_game_id (String.append "Steve" (String (ascii_of_nat 10) "")) = true
  /\ _is_valid_game_id
       (Py.strip (String.append "Steve" (String (ascii_of_nat 10) ""))) = true
  /\ Py.strip (String.append "Steve" (String (ascii_of_nat 10) "")) = "Steve".
Proof. repeat split; reflexivity. Qed.

(** X3: a start request is acknowledged only when the group is given and
    allowed, the stripped game id is a token of 3 to 16 characters, less
    than a whole second of cooldown is left for (requester, game id), the
    game id is neither whitelisted nor in [auditing_game_ids], the
    requester is below the quota and has no session in the group; it then
    hands exactly one preparation task to the loop, with the key of
    (requester, group) and the stripped game id, and touches neither the
    sessions, the lock set nor the whitelist. *)
Theorem acknowledged_start_checked
    (cfg : Config) (now : Q) (st : State) (user_id group_id : Z)
    (command_text : string) :
  let game_id := Py.strip command_text in
  let result :=
    handle_whitelist_command cfg now st user_id group_id command_text in
  result.2 = MsgAt user_id (MsgReceived game_id) ->
  (group_id <> 0 /\ group_id ∈ allowed_groups cfg
   /\ token_3_16 game_id = true
   /\ (forall expiry,
         cooldown st !! cooldown_key user_id game_id = Some expiry ->
         (expiry - now < 1)%Q)
   /\ whitelist st !! game_id = None
   /\ _get_user_whitelist_count st user_id < max_whitelist_per_qq cfg
   /\ (game_id ∉ auditing_game_ids st)
   /\ audit_sessions st !! session_key user_id group_id = None)
  /\ prepares result.1
     = (prepares st
        ++ [{| p_session_key := session_key user_id group_id;
               p_user_id := user_id; p_group_id := group_id;
               p_game_id := game_id; p_pending := true |}])%list
  /\ audit_sessions result.1 = audit_sessions st
  /\ auditing_game_ids result.1 = auditing_game_ids st
  /\ whitelist result.1 = whitelist st
  /\ audit_records result.1 = audit_records st.
Proof.
  intros game_id result Hack. split.
  - subst result. rewrite handle_whitelist_command_reply in Hack.
    unfold checks_in_source_order, check_group_given, check_group_allowed,
      check_game_id_given, check_game_id_valid, check_no_cooldown,
      check_not_whitelisted, check_quota, check_not_being_audited,
      check_no_session, _is_in_whitelist, _is_group_allowed in Hack.
    fold game_id in Hack. simpl first_failure in Hack.
    destruct (group_id =? 0)%Z eqn:Hgroup; [discriminate Hack|].
    destruct (bool_decide (group_id ∈ allowed_groups cfg)) eqn:Hallowed;
      [|discriminate Hack].
    destruct (String.eqb game_id "") eqn:Hgiven; [discriminate Hack|].
    destruct (_is_valid_game_id game_id) eqn:Hvalid; [|discriminate Hack].
    destruct (0 <? (_check_cooldown now st user_id game_id).2)%Z eqn:Hcool;
      [discriminate Hack|].
    destruct (bool_decide (is_Some (whitelist st !! game_id))) eqn:Hlisted;
      [discriminate Hack|].
    destruct (Z.ltb (_get_user_whitelist_count st user_id)
                (max_whitelist_per_qq cfg)) eqn:Hquota;
      [|discriminate Hack].
    destruct (bool_decide (game_id ∈ auditing_game_ids st)) eqn:Hlocked;
      [discriminate Hack|].
    destruct (bool_decide
                (is_Some (audit_sessions st !! session_key user_id group_id)))
      eqn:Hsession; [discriminate Hack|].
    clear Hack. repeat apply conj.
    + apply Z.eqb_neq. exact Hgroup.
    + apply bool_decide_eq_true in Hallowed. exact Hallowed.
    + subst game_id. rewrite valid_stripped in Hvalid. exact Hvalid.
    + intros expiry Hentry. apply Qnot_le_lt. intros Hone.
      apply Z.ltb_ge in Hcool.
      assert (0 < (_check_cooldown now st user_id game_id).2) as Hpos
        by (apply check_cooldown_positive; eauto).
      lia.
    + apply bool_decide_eq_false in Hlisted.
      destruct (whitelist st !! game_id); [|reflexivity].
      exfalso. apply Hlisted. eauto.
    + apply Z.ltb_lt. exact Hquota.
    + apply bool_decide_eq_false in Hlocked. exact Hlocked.
    + apply bool_decide_eq_false in Hsession.
      destruct (audit_sessions st !! _); [|reflexivity].
      exfalso. apply Hsession. eauto.
  - pose proof (handle_whitelist_command_state cfg now st user_id group_id
                  command_text) as Hcases.
    cbv zeta in Hcases. fold game_id in Hcases. fold result in Hcases.
    destruct (check_cooldown_frame now st user_id game_id)
      as (Hr & Hw & Hs & _ & Hg & _ & Hp).
    destruct Hcases as [(_ & Hearly) | [(_ & Hlate) | (_ & ->)]].
    + rewrite Hack in Hearly.
      destruct Hearly as [? | [? | [? | [? | (? & ? & ?)]]]]; discriminate.
    + rewrite Hack in Hlate.
      destruct Hlate as [? | [(? & ? & ?) | [? | ?]]]; discriminate.
    + simpl. rewrite Hp, Hs, Hg, Hw, Hr. auto.
Qed.

Lemma acknowledged_start_witness :
  prepares (handle_whitelist_command Scenario.cfg 0 init 1 100 " Alex ").1
  = [{| p_session_key := session_key 1 100; p_user_id := 1;
        p_group_id := 100; p_game_id := "Alex"; p_pending := true |}].
Proof.
  assert ((handle_whitelist_command Scenario.cfg 0 init 1 100 " Alex ").2
          = MsgAt 1 (MsgReceived (Py.strip " Alex "))) as Hack
    by (vm_compute; reflexivity).
  destruct (acknowledged_start_checked Scenario.cfg 0 init 1 100 " Alex " Hack)
    as (_ & Hp & _).
  exact Hp.
Defined.

(** ** The cooldown ledger *)

(** X4: a cooldown set at time [now] refuses the start requests of the
    same requester for the same game id as long as a whole second of it is
    left, with the hours and minutes left in the reply and without any
    change of the state; once it is over, the check passes and deletes
    the entry. *)
Theorem cooldown_round_trip
    (cfg : Config) (now now' : Q) (st : State) (user_id group_id : Z)
    (command_text : string) :
  let game_id := Py.strip command_text in
  let key := cooldown_key user_id game_id in
  let st1 := _set_cooldown cfg now st user_id game_id in
  let expiry := (now + inject_Z (cooldown_seconds cfg))%Q in
  let seconds := Py.int_of_Q (expiry - now') in
  ((1 <= expiry - now')%Q ->
   group_id <> 0 -> _is_group_allowed cfg group_id = true ->
   _is_valid_game_id game_id = true ->
   0 < seconds
   /\ handle_whitelist_command cfg now' st1 user_id group_id command_text
      = (st1, MsgCooldown (seconds / 3600) ((seconds mod 3600) / 60)))
  /\ ((expiry - now' <= 0)%Q ->
      (_check_cooldown now' st1 user_id game_id).2 = 0
      /\ cooldown (_check_cooldown now' st1 user_id game_id).1
         = delete key (cooldown st)).
Proof.
  intros game_id key st1 expiry seconds.
  assert (cooldown st1 !! key = Some expiry) as Hentry
    by (subst st1; simpl; apply lookup_insert_eq).
  split.
  - intros Hleft Hgroup Hallowed Hvalid.
    assert (0 < (_check_cooldown now' st1 user_id game_id).2) as Hpos
      by (apply check_cooldown_positive; eauto).
    assert (_check_cooldown now' st1 user_id game_id = (st1, seconds)) as Hcheck.
    { revert Hpos. unfold _check_cooldown. fold key. rewrite Hentry.
      destruct (Py.Qgtb (expiry - now') 0); simpl; [reflexivity | lia]. }
    rewrite Hcheck in Hpos. simpl in Hpos. split; [exact Hpos|].
    unfold handle_whitelist_command. fold game_id.
    apply Z.eqb_neq in Hgroup. rewrite Hgroup, Hallowed, Hvalid. simpl.
    destruct (String.eqb game_id "") eqn:Hempty.
    { apply String.eqb_eq in Hempty. rewrite Hempty in Hvalid. discriminate. }
    rewrite Hcheck. apply Z.ltb_lt in Hpos. rewrite Hpos. reflexivity.
  - intros Hover. unfold _check_cooldown. fold key. rewrite Hentry.
    apply Qle_bool_iff in Hover. unfold Py.Qgtb. rewrite Hover. simpl.
    split; [reflexivity|]. subst st1. simpl. apply delete_insert_eq.
Qed.

Example cooldown_round_trip_ex :
  let st1 := _set_cooldown Scenario.cfg 30 init 1 "Alex" in
  handle_whitelist_command Scenario.cfg 100 st1 1 100 "Alex"
  = (st1, MsgCooldown 0 58)
  /\ (handle_whitelist_command Scenario.cfg 3630 st1 1 100 "Alex").2
     = MsgAt 1 (MsgReceived "Alex").
Proof. split; vm_compute; reflexivity. Qed.

(** ** The lock set *)

Lemma locked_start_refused (cfg : Config) (now : Q) (st : State)
    (user_id group_id : Z) (command_text : string) :
  Py.strip command_text ∈ auditing_game_ids st ->
  (handle_whitelist_command cfg now st user_id group_id command_text).2
  <> MsgAt user_id (MsgReceived (Py.strip command_text)).
Proof.
  intros Hlocked. rewrite handle_whitelist_command_reply.
  unfold checks_in_source_order, check_group_given, check_group_allowed,
    check_game_id_given, check_game_id_valid, check_no_cooldown,
    check_not_whitelisted, check_quota, check_not_being_audited.
  simpl first_failure. rewrite (bool_decide_eq_true_2 _ Hlocked). simpl.
  repeat match goal with
         | |- context [if ?b then _ else _] => destruct b
         end; discriminate.
Qed.

Lemma refused_start_keeps_locks (cfg : Config) (now : Q) (st : State)
    (user_id group_id : Z) (command_text : string) :
  auditing_game_ids
    (handle_whitelist_command cfg now st user_id group_id command_text).1
  = auditing_game_ids st.
Proof.
  destruct (check_cooldown_frame now st user_id (Py.strip command_text))
    as (_ & _ & _ & _ & Hg & _).
  destruct (handle_whitelist_command_state cfg now st user_id group_id
              command_text) as [(-> & _) | [(-> & _) | (_ & ->)]];
    [reflexivity | exact Hg | exact Hg].
Qed.

Lemma start_keeps_sessions (cfg : Config) (now : Q) (st : State)
    (user_id group_id : Z) (command_text : string) :
  audit_sessions
    (handle_whitelist_command cfg now st user_id group_id command_text).1
  = audit_sessions st.
Proof.
  destruct (check_cooldown_frame now st user_id (Py.strip command_text))
    as (_ & _ & Hs & _).
  destruct (handle_whitelist_command_state cfg now st user_id group_id
              command_text) as [(-> & _) | [(-> & _) | (_ & ->)]];
    [reflexivity | exact Hs | exact Hs].
Qed.

(** X5: the preparation task of an interview, run with questions, puts
    its game id into [auditing_game_ids] and stores its session, with no
    answer yet.  No start request changes the lock set or the sessions;
    and in every state in which the requested game id is in
    [auditing_game_ids], the request is not acknowledged, whoever sends
    it, and hands no preparation task to the loop.  A game id is
    therefore refused for as long as it stays in the lock set. *)
Theorem locked_game_id_is_not_started (cfg : Config) :
  (forall now0 st0 key user_id0 group_id0 game_id first_question questions,
     let st :=
       (_prepare_and_send_first_question cfg now0 st0 key user_id0 group_id0
          game_id (Some (first_question :: questions))).1 in
     auditing_game_ids st = {[game_id]} ∪ auditing_game_ids st0
     /\ exists session,
          audit_sessions st !! key = Some session
          /\ s_game_id session = game_id /\ s_answers session = []
          /\ s_questions session = first_question :: questions)
  /\ (forall now st user_id group_id command_text,
        let result :=
          handle_whitelist_command cfg now st user_id group_id command_text in
        auditing_game_ids result.1 = auditing_game_ids st
        /\ audit_sessions result.1 = audit_sessions st
        /\ (Py.strip command_text ∈ auditing_game_ids st ->
            result.2 <> MsgAt user_id (MsgReceived (Py.strip command_text))
            /\ prepares result.1 = prepares st)).
Proof.
  split.
  - intros now0 st0 key user_id0 group_id0 game_id first_question questions
      st.
    split; [subst st; reflexivity|].
    eexists. subst st. simpl. rewrite lookup_insert_eq.
    split; [reflexivity|]. auto.
  - intros now st user_id group_id command_text result.
    split; [apply refused_start_keeps_locks|].
    split; [apply start_keeps_sessions|].
    intros Hlocked.
    pose proof (locked_start_refused cfg now st user_id group_id command_text
                  Hlocked) as Hrefused.
    split; [exact Hrefused|].
    apply (refused_start_frame cfg now st user_id group_id command_text
             Hrefused).
Qed.

Example locked_game_id_ex :
  (handle_whitelist_command Scenario.cfg 50 Scenario.interviewing 2 100
     " Alex ").2
  = MsgBeingAudited "Alex".
Proof. vm_compute. reflexivity. Qed.

(** ** The whitelist and the quota count *)

Section Count.

Lemma tally_comm user_id j1 j2 z1 z2 y :
  tally user_id j1 z1 (tally user_id j2 z2 y)
  = tally user_id j2 z2 (tally user_id j1 z1 y).
Proof. unfold tally. repeat case_decide; lia. Qed.

Lemma user_whitelist_count_nonneg st user_id :
  0 <= _get_user_whitelist_count st user_id.
Proof.
  unfold _get_user_whitelist_count.
  apply (map_fold_weak_ind (fun count _ => 0 <= count)); [lia|].
  intros i info m count _ Hcount. case_decide; lia.
Qed.

Lemma user_whitelist_count_insert st game_id info user_id :
  _get_user_whitelist_count
    (set_whitelist (<[game_id := info]> (whitelist st)) st) user_id
  = _get_user_whitelist_count
      (set_whitelist (delete game_id (whitelist st)) st) user_id
    + (if decide (w_user_id info = user_id) then 1 else 0).
Proof.
  unfold _get_user_whitelist_count. simpl.
  rewrite <- (insert_delete_eq (whitelist st)).
  rewrite map_fold_insert_L.
  - case_decide; lia.
  - intros j1 j2 z1 z2 y _ _ _. exact (tally_comm user_id j1 j2 z1 z2 y).
  - apply lookup_delete_eq.
Qed.

Lemma user_whitelist_count_delete st game_id user_id :
  _get_user_whitelist_count
    (set_whitelist (delete game_id (whitelist st)) st) user_id
  = _get_user_whitelist_count st user_id
    - match whitelist st !! game_id with
      | Some info => if decide (w_user_id info = user_id) then 1 else 0
      | None => 0
      end.
Proof.
  unfold _get_user_whitelist_count. simpl.
  destruct (whitelist st !! game_id) as [info|] eqn:Hentry.
  - rewrite (map_fold_delete_L _ _ game_id info (whitelist st));
      [case_decide; lia | | exact Hentry].
    intros j1 j2 z1 z2 y _ _ _. exact (tally_comm user_id j1 j2 z1 z2 y).
  - rewrite delete_id by exact Hentry. lia.
Qed.

(** X6: writing the whitelist entry of a game id changes the count of a
    requester by what the entry changes: one more for the requester the
    entry is written for, one less for the requester who had the game id
    before; for a game id that was not whitelisted the count of its
    requester grows by exactly one and no other count moves.  A count is
    never negative. *)
Theorem whitelist_count_after_add
    (now : Q) (st : State) (game_id : string) (user_id group_id : Z)
    (admin : bool) (other : Z) :
  let st' := _add_to_whitelist now st game_id user_id group_id admin in
  _get_user_whitelist_count st' other
  = _get_user_whitelist_count st other
    - match whitelist st !! game_id with
      | Some info => if decide (w_user_id info = other) then 1 else 0
      | None => 0
      end
    + (if decide (user_id = other) then 1 else 0)
  /\ (whitelist st !! game_id = None ->
      _get_user_whitelist_count st' user_id
      = _get_user_whitelist_count st user_id + 1
      /\ (other <> user_id ->
          _get_user_whitelist_count st' other
          = _get_user_whitelist_count st other))
  /\ 0 <= _get_user_whitelist_count st other.
Proof.
  intros st'.
  assert (forall v,
            _get_user_whitelist_count st' v
            = _get_user_whitelist_count st v
              - match whitelist st !! game_id with
                | Some info => if decide (w_user_id info = v) then 1 else 0
                | None => 0
                end
              + (if decide (user_id = v) then 1 else 0)) as Hcount.
  { intros v. subst st'. unfold _add_to_whitelist.
    rewrite user_whitelist_count_insert, user_whitelist_count_delete.
    reflexivity. }
  split; [apply Hcount|]. split; [|apply user_whitelist_count_nonneg].
  intros Hnew. split.
  - rewrite Hcount, Hnew. case_decide; [lia | contradiction].
  - intros Hother. rewrite Hcount, Hnew. case_decide; [congruence | lia].
Qed.

End Count.

Example admin_add_counts_for_the_admin :
  let st := (handle_admin_add Scenario.cfg Scenario.format_player 5 init
               7 100 "Bob" None).1 in
  _get_user_whitelist_count st 7 = 1 /\ _get_user_whitelist_count st 1 = 0
  /\ w_added_by <$> whitelist st !! "Bob" = Some ByAdmin.
Proof. vm_compute. repeat split; reflexivity. Qed.

(** X7: the [remove] command deletes the local entry of a whitelisted game
    id whatever the RCON client does, gives the requester of the entry one
    count back and leaves every other entry, the sessions, the lock set,
    the cooldown ledger and the records alone; for a game id that is not
    whitelisted it changes nothing. *)
Theorem admin_remove_is_local_first
    (cfg : Config) (py_format : string -> string -> Outcome string)
    (more : MoreConfig) (st : State) (game_id : string)
    (rcon_client : option RconClient) :
  let result := handle_admin_remove cfg py_format more st game_id rcon_client in
  (forall info,
     whitelist st !! game_id = Some info ->
     whitelist result.1 = delete game_id (whitelist st)
     /\ result.2 <> MsgAdminNotFound
     /\ _get_user_whitelist_count result.1 (w_user_id info)
        = _get_user_whitelist_count st (w_user_id info) - 1)
  /\ (whitelist st !! game_id = None -> result = (st, MsgAdminNotFound))
  /\ whitelist result.1 !! game_id = None
  /\ (forall other,
        other <> game_id -> whitelist result.1 !! other = whitelist st !! other)
  /\ audit_sessions result.1 = audit_sessions st
  /\ auditing_game_ids result.1 = auditing_game_ids st
  /\ cooldown result.1 = cooldown st
  /\ audit_records result.1 = audit_records st.
Proof.
  intros result. subst result. unfold handle_admin_remove.
  destruct (whitelist st !! game_id) as [info|] eqn:Hentry; simpl.
  - split; [|split; [discriminate|]].
    + intros info' [= <-]. split; [reflexivity|]. split.
      * destruct (_remove_from_server_whitelist _ _ _ _ _); discriminate.
      * rewrite user_whitelist_count_delete, Hentry.
        case_decide; [lia | contradiction].
    + split; [apply lookup_delete_eq|]. split; [|repeat split; reflexivity].
      intros other Hother. apply lookup_delete_ne. congruence.
  - split; [discriminate|]. split; [reflexivity|].
    split; [exact Hentry|]. repeat split; reflexivity.
Qed.

Example admin_remove_with_broken_rcon :
  let st := (handle_admin_add Scenario.cfg Scenario.format_player 5 init
               7 100 "Bob" None).1 in
  let result := handle_admin_remove Scenario.cfg Scenario.format_player
                  Bank.more st "Bob" (Some Scenario.broken_rcon) in
  result.2 = MsgAdminRemovedLocalOnly "Bob"
  /\ whitelist result.1 !! "Bob" = None
  /\ _get_user_whitelist_count result.1 7 = 0.
Proof. vm_compute. repeat split; reflexivity. Qed.

(** ** The idle-session sweep *)

Lemma cleanup_session_sessions st key :
  audit_sessions (cleanup_session st key) = delete key (audit_sessions st).
Proof.
  unfold cleanup_session.
  destruct (audit_sessions st !! key) as [session|] eqn:Hsession.
  - simpl.
    destruct (cancel_timeout_task_frame (release_game_id st (s_game_id session))
                key) as (_ & _ & _ & -> & _).
    destruct (release_game_id_frame st (s_game_id session))
      as (_ & _ & _ & -> & _). reflexivity.
  - symmetry. apply delete_id. exact Hsession.
Qed.

Lemma cancel_timeout_task_tasks st key :
  timeout_tasks (cancel_timeout_task st key) = delete key (timeout_tasks st).
Proof.
  unfold cancel_timeout_task.
  destruct (timeout_tasks st !! key) eqn:Hentry; simpl; [reflexivity|].
  symmetry. apply delete_id. exact Hentry.
Qed.

Lemma cleanup_session_shrinks st key :
  auditing_game_ids (cleanup_session st key) ⊆ auditing_game_ids st
  /\ (forall k, timeout_tasks st !! k = None ->
                timeout_tasks (cleanup_session st key) !! k = None).
Proof.
  unfold cleanup_session.
  destruct (audit_sessions st !! key) as [session|]; [|split; [reflexivity|auto]].
  simpl.
  destruct (cancel_timeout_task_frame (release_game_id st (s_game_id session))
              key) as (_ & _ & _ & _ & -> & _).
  rewrite release_game_id_ids, cancel_timeout_task_tasks.
  destruct (release_game_id_frame st (s_game_id session))
    as (_ & _ & _ & _ & -> & _).
  split; [apply subseteq_difference_l; reflexivity|]. intros k Hk.
  destruct (decide (key = k)) as [-> | Hne];
    [apply lookup_delete_eq | rewrite lookup_delete_ne by exact Hne; exact Hk].
Qed.

Lemma cleanup_session_releases st key session :
  audit_sessions st !! key = Some session ->
  (s_game_id session ∉ auditing_game_ids (cleanup_session st key))
  /\ timeout_tasks (cleanup_session st key) !! key = None.
Proof.
  intros Hsession. unfold cleanup_session. rewrite Hsession. simpl.
  destruct (cancel_timeout_task_frame (release_game_id st (s_game_id session))
              key) as (_ & _ & _ & _ & -> & _).
  rewrite release_game_id_ids, cancel_timeout_task_tasks.
  split; [|apply lookup_delete_eq].
  apply not_elem_of_difference. right. apply elem_of_singleton. reflexivity.
Qed.

Lemma foldl_cleanup_shrinks keys : forall st,
  auditing_game_ids (foldl cleanup_session st keys) ⊆ auditing_game_ids st
  /\ (forall k, timeout_tasks st !! k = None ->
                timeout_tasks (foldl cleanup_session st keys) !! k = None).
Proof.
  induction keys as [|key keys IH]; intros st; simpl; [split; [reflexivity|auto]|].
  destruct (IH (cleanup_session st key)) as [Hids Htasks].
  destruct (cleanup_session_shrinks st key) as [Hids1 Htasks1].
  split; [etrans; eassumption | auto].
Qed.

Lemma foldl_cleanup_sessions keys : forall st key,
  audit_sessions (foldl cleanup_session st keys) !! key
  = if decide (key ∈ keys) then None else audit_sessions st !! key.
Proof.
  induction keys as [|k keys IH]; intros st key; cbn [foldl].
  - rewrite decide_False; [reflexivity | apply not_elem_of_nil].
  - rewrite IH, cleanup_session_sessions.
    destruct (decide (key = k)) as [-> | Hne].
    + rewrite lookup_delete_eq.
      rewrite (decide_True (P := k ∈ k :: keys)) by apply list_elem_of_here.
      case_decide; reflexivity.
    + rewrite lookup_delete_ne by congruence.
      destruct (decide (key ∈ keys)) as [Hin | Hout].
      * rewrite (decide_True (P := key ∈ k :: keys))
          by (apply list_elem_of_further; exact Hin).
        reflexivity.
      * rewrite (decide_False (P := key ∈ k :: keys)); [reflexivity|].
        intros Hin. apply elem_of_cons in Hin as [? | ?]; contradiction.
Qed.

Lemma foldl_cleanup_releases keys : forall st key session,
  key ∈ keys ->
  audit_sessions st !! key = Some session ->
  (s_game_id session ∉ auditing_game_ids (foldl cleanup_session st keys))
  /\ timeout_tasks (foldl cleanup_session st keys) !! key = None.
Proof.
  induction keys as [|k keys IH]; intros st key session Hin Hsession; simpl.
  - apply elem_of_nil in Hin. contradiction.
  - destruct (decide (key = k)) as [-> | Hne].
    + destruct (cleanup_session_releases st k session Hsession) as [Hid Htask].
      destruct (foldl_cleanup_shrinks keys (cleanup_session st k))
        as [Hids Htasks].
      split; [|auto]. intros Hlocked. apply Hid, Hids, Hlocked.
    + apply elem_of_cons in Hin as [? | Hin]; [contradiction|].
      apply IH; [exact Hin|].
      rewrite cleanup_session_sessions, lookup_delete_ne by congruence.
      exact Hsession.
Qed.

Lemma elem_of_expired_sessions now st key :
  key ∈ expired_sessions now st
  <-> exists session,
        audit_sessions st !! key = Some session
        /\ Py.Qgtb (now - s_last_activity_time session) 1800 = true.
Proof.
  unfold expired_sessions. rewrite list_elem_of_fmap. split.
  - intros ([k session] & -> & Hin). apply list_elem_of_filter in Hin as [Hidle Hin].
    apply elem_of_map_to_list in Hin. simpl in *. eauto.
  - intros (session & Hsession & Hidle). exists (key, session).
    split; [reflexivity|]. apply list_elem_of_filter. split; [exact Hidle|].
    apply elem_of_map_to_list. exact Hsession.
Qed.

Lemma sweep_sessions_subset now st key session :
  audit_sessions (_cleanup_expired_sessions now st) !! key = Some session ->
  audit_sessions st !! key = Some session.
Proof.
  unfold _cleanup_expired_sessions. rewrite foldl_cleanup_sessions.
  case_decide; [discriminate | auto].
Qed.

(** X8: one round of the sweep removes exactly the sessions whose last
    activity is more than 1800 seconds old and keeps every other session
    as it is; for each session it removes, the game id is no longer in
    [auditing_game_ids] and no timeout task is registered; it adds nothing
    to the lock set. *)
Theorem sweep_removes_idle_sessions (now : Q) (st : State) (key : string) :
  let st' := _cleanup_expired_sessions now st in
  audit_sessions st' !! key
  = match audit_sessions st !! key with
    | Some session =>
        if Py.Qgtb (now - s_last_activity_time session) 1800 then None
        else Some session
    | None => None
    end
  /\ (forall session,
        audit_sessions st !! key = Some session ->
        Py.Qgtb (now - s_last_activity_time session) 1800 = true ->
        (s_game_id session ∉ auditing_game_ids st')
        /\ timeout_tasks st' !! key = None)
  /\ auditing_game_ids st' ⊆ auditing_game_ids st.
Proof.
  intros st'. subst st'. unfold _cleanup_expired_sessions. split; [|split].
  - rewrite foldl_cleanup_sessions.
    destruct (audit_sessions st !! key) as [session|] eqn:Hsession.
    + destruct (Py.Qgtb (now - s_last_activity_time session) 1800) eqn:Hidle.
      * rewrite decide_True; [reflexivity|].
        apply elem_of_expired_sessions. eauto.
      * rewrite decide_False; [reflexivity|]. intros Hin.
        apply elem_of_expired_sessions in Hin as (session' & Hs & Hidle').
        congruence.
    + case_decide; reflexivity.
  - intros session Hsession Hidle. apply foldl_cleanup_releases; [|exact Hsession].
    apply elem_of_expired_sessions. eauto.
  - apply foldl_cleanup_shrinks.
Qed.

Example sweep_keeps_active_session :
  audit_sessions (_cleanup_expired_sessions 1801 Scenario.interviewing) !! "1_100"
  = audit_sessions Scenario.interviewing !! "1_100"
  /\ audit_sessions (_cleanup_expired_sessions 1802 Scenario.interviewing)
       !! "1_100" = None.
Proof. split; vm_compute; reflexivity. Qed.

(** ** Resetting and unloading *)

Lemma append_nil (s : string) : String.append "" s = s.
Proof. reflexivity. Qed.

Lemma append_cons (c : ascii) (s t : string) :
  String.append (String c s) t = String c (String.append s t).
Proof. reflexivity. Qed.

Lemma prefix_cons (c d : ascii) (s t : string) :
  String.prefix (String c s) (String d t)
  = if ascii_dec c d then String.prefix s t else false.
Proof. reflexivity. Qed.

Lemma prefix_split_at_underscore (a b v : string) :
  Py.all_chars not_underscore a = true ->
  Py.all_chars not_underscore b = true ->
  String.prefix (String.append a "_") (String.append b (String "_" v)) = true ->
  a = b.
Proof.
  revert b. induction a as [|c a IH]; intros [|d b] Ha Hb Hp;
    cbn [Py.all_chars] in *;
    rewrite ?append_cons, ?append_nil, ?prefix_cons in Hp.
  - reflexivity.
  - destruct (ascii_dec "_" d) as [<- | Hne]; [|discriminate Hp].
    unfold not_underscore in Hb. rewrite Ascii.eqb_refl in Hb. discriminate Hb.
  - destruct (ascii_dec c "_") as [-> | Hne]; [|discriminate Hp].
    unfold not_underscore in Ha. rewrite Ascii.eqb_refl in Ha. discriminate Ha.
  - destruct (ascii_dec c d) as [-> | Hne]; [|discriminate Hp].
    apply andb_true_iff in Ha as [_ Ha]. apply andb_true_iff in Hb as [_ Hb].
    rewrite (IH b Ha Hb Hp). reflexivity.
Qed.

Lemma find_first {A : Type} (f : A -> bool) (l : list A) (x : A) :
  find f l = Some x ->
  exists before after,
    l = (before ++ x :: after)%list
    /\ f x = true
    /\ forall y, y ∈ before -> f y = false.
Proof.
  induction l as [|a l IH]; intros Hfind; [discriminate Hfind|].
  cbn [find] in Hfind. destruct (f a) eqn:Hfa.
  - injection Hfind as ->. exists [], l.
    split; [reflexivity|]. split; [exact Hfa|].
    intros y Hy. apply not_elem_of_nil in Hy. contradiction.
  - destruct (IH Hfind) as (before & after & -> & Hfx & Hbefore).
    exists (a :: before), after. split; [reflexivity|]. split; [exact Hfx|].
    intros y Hy. apply elem_of_cons in Hy as [-> | Hy]; auto.
Qed.

(** X9: the [reset] command removes at most one session; when it answers
    that the session is reset, the session it has removed is that of the
    first of the listed keys that starts with the target and an
    underscore -- no key listed before it starts so --, its game id is
    released, its timeout task is unregistered, and neither a cooldown
    entry nor a record nor a whitelist entry is written; given the decimal
    text of a requester as target, the session it removes is one of that
    requester; otherwise it changes nothing, and it answers that no
    session was found exactly when no listed key starts with the target
    and an underscore. *)
Theorem admin_reset_cancels_without_cooldown
    (keys : list string) (st : State) (target_user_id : string) :
  let result := handle_admin_reset keys st target_user_id in
  cooldown result.1 = cooldown st
  /\ whitelist result.1 = whitelist st
  /\ audit_records result.1 = audit_records st
  /\ (result.2 = MsgResetDone target_user_id ->
      exists before key after session,
        keys = (before ++ key :: after)%list
        /\ (forall earlier, earlier ∈ before ->
              String.prefix (target_user_id ++ "_") earlier = false)
        /\ String.prefix (target_user_id ++ "_") key = true
        /\ audit_sessions st !! key = Some session
        /\ audit_sessions result.1 = delete key (audit_sessions st)
        /\ auditing_game_ids result.1
           = auditing_game_ids st ∖ {[s_game_id session]}
        /\ timeout_tasks result.1 = delete key (timeout_tasks st)
        /\ (forall user_id user_id' group_id,
              target_user_id = Py.str user_id ->
              key = session_key user_id' group_id ->
              user_id' = user_id))
  /\ (result.2 <> MsgResetDone target_user_id -> result.1 = st)
  /\ (result.2 = MsgResetNotFound target_user_id
      <-> forall key, key ∈ keys ->
                      String.prefix (target_user_id ++ "_") key = false).
Proof.
  intros result. subst result. unfold handle_admin_reset.
  destruct (find (String.prefix (target_user_id ++ "_")) keys) as [key|] eqn:Hfind.
  - destruct (find_first _ _ _ Hfind)
      as (before & after & Hkeys & Hprefix & Hbefore).
    assert (key ∈ keys) as Hin.
    { rewrite Hkeys. apply elem_of_app. right. apply list_elem_of_here. }
    destruct (audit_sessions st !! key) as [session|] eqn:Hsession; simpl.
    + destruct (cancel_timeout_task_frame
                  (release_game_id st (s_game_id session)) key)
        as (Hr & Hw & Hc & Hs & Hg & _).
      destruct (release_game_id_frame st (s_game_id session))
        as (Hr' & Hw' & Hc' & Hs' & Ht' & _).
      rewrite Hr, Hw, Hc, Hs, Hg, Hr', Hw', Hc', Hs', release_game_id_ids,
        cancel_timeout_task_tasks, Ht'.
      repeat (split; [reflexivity|]). split; [|split; [contradiction|]].
      * intros _. exists before, key, after, session.
        repeat (split; [auto; fail|]).
        intros user_id user_id' group_id -> ->. unfold session_key in Hprefix.
        apply prefix_split_at_underscore in Hprefix;
          try apply str_not_underscore.
        symmetry. eapply (inj pretty). exact Hprefix.
      * split; [discriminate|]. intros Hnone.
        rewrite (Hnone key Hin) in Hprefix. discriminate Hprefix.
    + repeat (split; [reflexivity|]). split; [discriminate|].
      split; [reflexivity|]. split; [discriminate|]. intros Hnone.
      rewrite (Hnone key Hin) in Hprefix. discriminate Hprefix.
  - simpl. repeat (split; [reflexivity|]). split; [discriminate|].
    split; [reflexivity|]. split; [|reflexivity]. intros _ key Hin.
    apply (find_none _ _ Hfind). apply list_elem_of_In. exact Hin.
Qed.

(** Of two sessions of member 1, the one whose key is listed first is
    reset and the other is kept. *)
Example admin_reset_first_key :
  let cfg2 :=
    {| allowed_groups := [100; 200]; cooldown_seconds := 3600;
       pass_score := 18; question_count := 3; answer_timeout := 180;
       max_whitelist_per_qq := 1; add_command := "whitelist add {player}";
       list_command := "whitelist list" |} in
  let st :=
    (run cfg2 Scenario.format_player init
       [EStart 0 1 100 "Alex"; EStart 0 1 200 "Bob";
        EPrepare 1 0%nat (Some Scenario.questions);
        EPrepare 1 1%nat (Some Scenario.questions)]).1 in
  let result := handle_admin_reset ["1_200"; "1_100"] st "1" in
  result.2 = MsgResetDone "1"
  /\ audit_sessions result.1 !! "1_200" = None
  /\ s_game_id <$> audit_sessions result.1 !! "1_100" = Some "Alex"
  /\ elements (auditing_game_ids result.1) = ["Alex"].
Proof. vm_compute. repeat split; reflexivity. Qed.

Example admin_reset_ex :
  let result := handle_admin_reset ["1_100"] Scenario.two_answered "1" in
  result.2 = MsgResetDone "1"
  /\ audit_sessions result.1 !! "1_100" = None
  /\ elements (auditing_game_ids result.1) = []
  /\ cooldown result.1 !! "1_Alex" = None
  /\ (handle_admin_reset ["1_100"] Scenario.two_answered "10").2
     = MsgResetNotFound "10".
Proof. vm_compute. repeat split; reflexivity. Qed.

Lemma cancel_task_not_sleeping (t : TimeoutTask) :
  t_status (cancel_task t) <> Sleeping.
Proof. unfold cancel_task. destruct (t_status t) eqn:H; simpl; congruence. Qed.

Lemma cancel_task_done (t : TimeoutTask) :
  t_status t <> Sleeping -> cancel_task t = t.
Proof. unfold cancel_task. destruct (t_status t); congruence. Qed.

Lemma foldl_cancel_lookup (entries : list (string * nat)) :
  forall (ts : list TimeoutTask) (id : nat),
    foldl (fun ts entry => alter cancel_task entry.2 ts) ts entries !! id
    = (if decide (id ∈ entries.*2) then cancel_task <$> ts !! id
       else ts !! id).
Proof.
  induction entries as [|[key id0] entries IH]; intros ts id; cbn [foldl].
  - rewrite decide_False; [reflexivity | apply not_elem_of_nil].
  - rewrite IH, fmap_cons. cbn [snd]. rewrite list_lookup_alter.
    destruct (decide (id0 = id)) as [-> | Hne].
    + rewrite (decide_True (P := id ∈ id :: entries.*2))
        by apply list_elem_of_here.
      case_decide; [|reflexivity].
      destruct (ts !! id) as [t|]; [|reflexivity]. simpl.
      rewrite (cancel_task_done (cancel_task t)); [reflexivity|].
      apply cancel_task_not_sleeping.
    + destruct (decide (id ∈ entries.*2)) as [Hin | Hout].
      * rewrite (decide_True (P := id ∈ id0 :: entries.*2))
          by (apply list_elem_of_further; exact Hin). reflexivity.
      * rewrite (decide_False (P := id ∈ id0 :: entries.*2)); [reflexivity|].
        intros Hin. apply elem_of_cons in Hin as [? | ?];
          [congruence | contradiction].
Qed.

(** X10: after [on_unload] the lock set is empty and no registered
    timeout task is sleeping any more, so that none of them, run later by
    the loop, changes anything; the tasks that were done or cancelled, the
    sessions, the whitelist, the cooldown ledger and the records are as
    they were. *)
Theorem unload_cancels_every_timer (st : State) :
  let st' := on_unload st in
  auditing_game_ids st' = ∅
  /\ audit_sessions st' = audit_sessions st
  /\ timeout_tasks st' = timeout_tasks st
  /\ whitelist st' = whitelist st
  /\ cooldown st' = cooldown st
  /\ audit_records st' = audit_records st
  /\ (forall key id t,
        timeout_tasks st !! key = Some id ->
        tasks st' !! id = Some t -> t_status t <> Sleeping)
  /\ (forall id t,
        tasks st !! id = Some t -> t_status t <> Sleeping ->
        tasks st' !! id = Some t)
  /\ (forall cfg py_format now key id,
        timeout_tasks st !! key = Some id ->
        step cfg py_format st' (ETimeout now id) = (st', [])).
Proof.
  intros st'.
  assert (forall key id t,
            timeout_tasks st !! key = Some id ->
            tasks st' !! id = Some t -> t_status t <> Sleeping) as Hcancelled.
  { intros key id t Hentry. subst st'. simpl. rewrite foldl_cancel_lookup.
    rewrite decide_True.
    - destruct (tasks st !! id) as [t0|]; [|discriminate].
      intros [= <-]. apply cancel_task_not_sleeping.
    - apply list_elem_of_fmap. exists (key, id). split; [reflexivity|].
      apply elem_of_map_to_list. exact Hentry. }
  repeat (split; [reflexivity|]). split; [exact Hcancelled|]. split.
  - intros id t Hid Hstatus. subst st'. simpl. rewrite foldl_cancel_lookup, Hid.
    case_decide; [|reflexivity]. simpl. rewrite cancel_task_done by exact Hstatus.
    reflexivity.
  - intros cfg py_format now key id Hentry. unfold step.
    destruct (tasks st' !! id) as [t|] eqn:Hid; [|reflexivity].
    pose proof (Hcancelled key id t Hentry Hid) as Hstatus.
    destruct (t_status t); [contradiction | reflexivity | reflexivity].
Qed.

Example unload_ex :
  let st := on_unload Scenario.two_answered in
  t_status <$> tasks Scenario.two_answered !! 2%nat = Some Sleeping
  /\ t_status <$> tasks st !! 2%nat = Some Cancelled
  /\ is_Some (audit_sessions st !! "1_100").
Proof. vm_compute. repeat split; eauto. Qed.

(** ** The question source *)

Section Questions.

Context (cfg : Config) (more : MoreConfig).

Lemma fetch_attempt_Some ai_available outcome attempt max_retries questions :
  fetch_attempt cfg ai_available outcome attempt max_retries
  = Some (Some questions) ->
  ai_available = true /\ outcome = FetchParsed questions
  /\ question_count cfg <= Z.of_nat (length questions).
Proof.
  unfold fetch_attempt. destruct ai_available; [|discriminate].
  destruct outcome as [parsed| |].
  - destruct (question_count cfg <=? Z.of_nat (length parsed))%Z eqn:Henough.
    + intros [= <-]. apply Z.leb_le in Henough. auto.
    + destruct (attempt <? max_retries - 1)%nat; discriminate.
  - destruct (attempt <? max_retries - 1)%nat; discriminate.
  - destruct (attempt <? max_retries - 1)%nat; discriminate.
Qed.

(** X11: [_fetch_questions_from_ai] makes at most three requests; a list it
    returns is the parsed reply of one of them and has at least
    [question_count] questions; a reply with enough questions to the first
    request is returned as it is; without the client library it returns
    nothing. *)
Theorem fetch_from_ai_bounded (ai_available : bool) (ai : nat -> FetchOutcome) :
  let result := _fetch_questions_from_ai cfg ai_available ai in
  (forall questions,
     result = Some questions ->
     ai_available = true
     /\ question_count cfg <= Z.of_nat (length questions)
     /\ exists attempt, (attempt < 3)%nat /\ ai attempt = FetchParsed questions)
  /\ (forall questions,
        ai_available = true -> ai 0%nat = FetchParsed questions ->
        question_count cfg <= Z.of_nat (length questions) ->
        result = Some questions)
  /\ (ai_available = false -> result = None)
  /\ (forall ai' : nat -> FetchOutcome,
        ai' 0%nat = ai 0%nat -> ai' 1%nat = ai 1%nat -> ai' 2%nat = ai 2%nat ->
        _fetch_questions_from_ai cfg ai_available ai' = result).
Proof.
  intros result. subst result. unfold _fetch_questions_from_ai. simpl.
  repeat apply conj.
  - intros questions.
    destruct (fetch_attempt cfg ai_available (ai 0%nat) 0 3)
      as [[q0|]|] eqn:H0.
    { intros [= ->]. apply fetch_attempt_Some in H0 as (? & ? & ?). eauto 10. }
    { discriminate. }
    destruct (fetch_attempt cfg ai_available (ai 1%nat) 1 3)
      as [[q1|]|] eqn:H1.
    { intros [= ->]. apply fetch_attempt_Some in H1 as (? & ? & ?). eauto 10. }
    { discriminate. }
    destruct (fetch_attempt cfg ai_available (ai 2%nat) 2 3)
      as [[q2|]|] eqn:H2.
    { intros [= ->]. apply fetch_attempt_Some in H2 as (? & ? & ?). eauto 10. }
    { discriminate. }
    discriminate.
  - intros questions -> H0 Henough. unfold fetch_attempt. rewrite H0.
    apply Z.leb_le in Henough. rewrite Henough. reflexivity.
  - intros ->. reflexivity.
  - intros ai' -> -> ->. reflexivity.
Qed.

Example fetch_from_ai_third_try :
  _fetch_questions_from_ai Scenario.cfg true Bank.ai_short
  = Some ["A1"; "A2"; "A3"; "A4"].
Proof. reflexivity. Qed.

Lemma slice_to_take {A : Type} (l : list A) (n : Z) :
  0 <= n -> slice_to l n = take (Z.to_nat n) l.
Proof. intros Hn. unfold slice_to. apply Z.leb_le in Hn. rewrite Hn. reflexivity. Qed.

(** X12: with a question count that is not negative and a [random.sample]
    that returns as many elements as it is asked for, [_fetch_questions]
    never raises and never returns more than [question_count] questions;
    it returns exactly [question_count] questions when the AI supplied that
    many or the bank of default questions holds that many, and otherwise
    the whole bank. *)
Theorem fetch_questions_count
    (ai_available : bool) (ai : nat -> FetchOutcome)
    (sample : list string -> nat -> list string) :
  (forall l k, (k <= length l)%nat -> length (sample l k) = k) ->
  0 <= question_count cfg ->
  exists questions,
    _fetch_questions cfg more ai_available ai sample = Ret questions
    /\ Z.of_nat (length questions) <= question_count cfg
    /\ (question_count cfg <= Z.of_nat (length (default_questions more)) ->
        Z.of_nat (length questions) = question_count cfg)
    /\ (Z.of_nat (length questions) < question_count cfg ->
        questions = default_questions more).
Proof.
  intros Hsample Hcount.
  assert (exists questions,
            _get_default_questions cfg more sample = Ret questions
            /\ Z.of_nat (length questions) <= question_count cfg
            /\ (question_count cfg <= Z.of_nat (length (default_questions more)) ->
                Z.of_nat (length questions) = question_count cfg)
            /\ (Z.of_nat (length questions) < question_count cfg ->
                questions = default_questions more)) as Hdefault.
  { unfold _get_default_questions.
    destruct (Z.of_nat (length (default_questions more)) <=? question_count cfg)%Z
      eqn:Hbank.
    - apply Z.leb_le in Hbank. eexists. split; [reflexivity|].
      rewrite slice_to_take by exact Hcount.
      rewrite take_ge by lia.
      split; [lia | split; [intros; lia | intros; reflexivity]].
    - apply Z.leb_gt in Hbank.
      destruct (question_count cfg <? 0)%Z eqn:Hneg;
        [apply Z.ltb_lt in Hneg; lia|].
      eexists. split; [reflexivity|]. rewrite Hsample by lia.
      split; [lia | split; intros; lia]. }
  unfold _fetch_questions.
  destruct (if use_ai_questions more
            then _fetch_questions_from_ai cfg ai_available ai else None)
    as [[|first rest]|]; try exact Hdefault.
  destruct (question_count cfg <=? Z.of_nat (length (first :: rest)))%Z
    eqn:Henough; [|exact Hdefault].
  apply Z.leb_le in Henough. eexists. split; [reflexivity|].
  rewrite slice_to_take by exact Hcount.
  rewrite length_take_le by lia. split; [lia | split; intros; lia].
Qed.

End Questions.

Lemma fetch_questions_witness :
  exists questions,
    _fetch_questions Scenario.cfg Bank.more true Bank.ai_short Bank.sample
    = Ret questions
    /\ Z.of_nat (length questions) <= 3.
Proof.
  destruct (fetch_questions_count Scenario.cfg Bank.more true Bank.ai_short
              Bank.sample) as (questions & Hfetch & Hlen & _).
  - intros l k Hk. apply length_take_le. exact Hk.
  - vm_compute. discriminate.
  - exists questions. split; [exact Hfetch | exact Hlen].
Defined.

Example fetch_questions_ex :
  _fetch_questions Scenario.cfg Bank.more true Bank.ai_short Bank.sample
  = Ret ["D1"; "D2"; "D3"].
Proof. reflexivity. Qed.

(** ** Answers *)

Section Answers.

Context (cfg : Config) (py_format : string -> string -> Outcome string).

(** X13: an answer that arrives more than [answer_timeout] seconds after
    its question was issued is not recorded: the call answers that the
    question has timed out and ends the interview as a timeout does -- the
    record holds the earlier answers followed by the empty answer, with
    score 0, the cooldown is set, the game id is released, the session and
    its registered timeout task are removed and nothing is whitelisted. *)
Theorem late_answer_times_out
    (now : Q) (st : State) (user_id group_id : Z) (command_text : string)
    (ai_available : bool) (ai : nat -> AiOutcome) (session : Session) :
  let key := session_key user_id group_id in
  let answer := Py.strip command_text in
  audit_sessions st !! key = Some session ->
  answer <> "" -> (String.length answer <= 500)%nat ->
  (inject_Z (answer_timeout cfg)
   < now - s_current_question_start_time session)%Q ->
  let result := handle_answer_command cfg py_format now st user_id group_id
                  command_text ai_available ai in
  result.1.2 = Some MsgAnswerTimedOut /\ result.2 = []
  /\ audit_sessions result.1.1 = delete key (audit_sessions st)
  /\ auditing_game_ids result.1.1
     = auditing_game_ids st ∖ {[s_game_id session]}
  /\ audit_records result.1.1 !! Py.str user_id
     = Some (default [] (audit_records st !! Py.str user_id)
             ++ [timeout_record now session user_id group_id
                   (length (s_answers session))])%list
  /\ cooldown result.1.1
     = <[cooldown_key user_id (s_game_id session) :=
           (now + inject_Z (cooldown_seconds cfg))%Q]> (cooldown st)
  /\ timeout_tasks result.1.1 = delete key (timeout_tasks st)
  /\ whitelist result.1.1 = whitelist st.
Proof.
  intros key answer Hsession Hgiven Hshort Hlate result. subst result.
  unfold handle_answer_command. fold key answer. rewrite Hsession.
  apply String.eqb_neq in Hgiven. rewrite Hgiven.
  apply Nat.ltb_ge in Hshort. rewrite Hshort.
  assert (Py.Qgtb (now - s_current_question_start_time session)
            (inject_Z (answer_timeout cfg)) = true) as ->.
  { unfold Py.Qgtb. apply negb_true_iff. apply not_true_is_false.
    rewrite Qle_bool_iff. apply Qlt_not_le. exact Hlate. }
  cbn [fst snd].
  destruct (handle_question_timeout_acts cfg now st key user_id group_id
              session Hsession) as (-> & -> & -> & -> & -> & -> & _).
  rewrite lookup_insert_eq. auto 10.
Qed.

(** X14: an answer that arrives in time and is not the last one is stored
    stripped at the end of the answers, with the activity and question
    times set to the time of the call; the registered timeout task is
    cancelled and a new sleeping one, tagged with the new number of
    answers, is registered in its place; the question of that number is
    sent; the lock set, the whitelist, the cooldown ledger and the records
    stay as they are. *)
Theorem accepted_answer_advances
    (now : Q) (st : State) (user_id group_id : Z) (command_text : string)
    (ai_available : bool) (ai : nat -> AiOutcome) (session : Session)
    (next_question : string) :
  let key := session_key user_id group_id in
  let answer := Py.strip command_text in
  let answered := S (length (s_answers session)) in
  audit_sessions st !! key = Some session ->
  answer <> "" -> (String.length answer <= 500)%nat ->
  (now - s_current_question_start_time session
   <= inject_Z (answer_timeout cfg))%Q ->
  Z.of_nat answered < question_count cfg ->
  s_questions session !! answered = Some next_question ->
  let result := handle_answer_command cfg py_format now st user_id group_id
                  command_text ai_available ai in
  result.1.2 = None
  /\ result.2
     = [(group_id,
         MsgAt user_id
           (MsgNextQuestion (answered + 1) (question_count cfg) next_question
              (answer_timeout cfg / 60)))]
  /\ audit_sessions result.1.1
     = <[key := set_current_question_start_time now
                  (set_last_activity_time now
                     (set_answers (s_answers session ++ [answer])%list
                        session))]> (audit_sessions st)
  /\ timeout_tasks result.1.1 !! key = Some (length (tasks st))
  /\ tasks result.1.1 !! length (tasks st)
     = Some {| t_session_key := key; t_user_id := user_id;
               t_group_id := group_id; t_question_index := answered;
               t_created := now; t_status := Sleeping |}
  /\ (forall id t,
        timeout_tasks st !! key = Some id -> tasks st !! id = Some t ->
        tasks result.1.1 !! id = Some (cancel_task t))
  /\ auditing_game_ids result.1.1 = auditing_game_ids st
  /\ whitelist result.1.1 = whitelist st
  /\ cooldown result.1.1 = cooldown st
  /\ audit_records result.1.1 = audit_records st.
Proof.
  intros key answer answered Hsession Hgiven Hshort Hintime Hmore Hnext result.
  subst result. unfold handle_answer_command. fold key answer.
  rewrite Hsession.
  apply String.eqb_neq in Hgiven. rewrite Hgiven.
  apply Nat.ltb_ge in Hshort. rewrite Hshort.
  assert (Py.Qgtb (now - s_current_question_start_time session)
            (inject_Z (answer_timeout cfg)) = false) as ->.
  { unfold Py.Qgtb. apply negb_false_iff. apply Qle_bool_iff. exact Hintime. }
  cbn [s_answers set_last_activity_time set_answers].
  rewrite length_app. cbn [length]. rewrite Nat.add_1_r. fold answered.
  apply Z.leb_gt in Hmore. rewrite Hmore.
  cbn [s_questions set_current_question_start_time set_last_activity_time
       set_answers]. rewrite Hnext. cbn [fst snd].
  destruct (cancel_timeout_task_frame st key) as (Hr & Hw & Hc & Hs & Hg & _).
  unfold start_timeout_task. simpl.
  rewrite Hr, Hw, Hc, Hs, Hg, insert_insert_eq, lookup_insert_eq.
  assert (length (tasks (cancel_timeout_task st key)) = length (tasks st))
    as Hlen.
  { unfold cancel_timeout_task. destruct (timeout_tasks st !! key); simpl;
      [apply length_alter | reflexivity]. }
  rewrite Hlen. split; [reflexivity|]. split.
  { replace (answered + 1)%nat with (S answered) by lia. reflexivity. }
  split; [reflexivity|]. split; [reflexivity|]. split.
  { rewrite lookup_app_r by lia. rewrite Hlen, Nat.sub_diag. reflexivity. }
  split; [|auto].
  intros id t Hentry Hid. apply lookup_app_l_Some.
  unfold cancel_timeout_task. rewrite Hentry. simpl.
  rewrite list_lookup_alter_eq, Hid. reflexivity.
Qed.

End Answers.

Lemma late_answer_witness :
  (handle_answer_command Scenario.cfg Scenario.format_player 500
     Scenario.two_answered 1 100 "too late" true Scenario.ai_22).1.2
  = Some MsgAnswerTimedOut.
Proof.
  assert (audit_sessions Scenario.two_answered !! session_key 1 100
          = Some {| s_user_id := 1; s_game_id := "Alex"; s_group_id := 100;
                    s_questions := Scenario.questions;
                    s_answers := ["first"; "second"];
                    s_current_question_index := 0; s_start_time := 1;
                    s_last_activity_time := 20;
                    s_current_question_start_time := 20 |}) as Hsession
    by (vm_compute; reflexivity).
  destruct (late_answer_times_out Scenario.cfg Scenario.format_player 500
              Scenario.two_answered 1 100 "too late" true Scenario.ai_22 _
              Hsession) as (Hreply & _).
  - discriminate.
  - vm_compute. lia.
  - reflexivity.
  - exact Hreply.
Defined.

Lemma accepted_answer_witness :
  (handle_answer_command Scenario.cfg Scenario.format_player 10
     Scenario.interviewing 1 100 " first " true Scenario.ai_22).2
  = [(100, MsgAt 1 (MsgNextQuestion 2 3 "Q2" 3))].
Proof.
  assert (audit_sessions Scenario.interviewing !! session_key 1 100
          = Some {| s_user_id := 1; s_game_id := "Alex"; s_group_id := 100;
                    s_questions := Scenario.questions; s_answers := [];
                    s_current_question_index := 0; s_start_time := 1;
                    s_last_activity_time := 1;
                    s_current_question_start_time := 1 |}) as Hsession
    by (vm_compute; reflexivity).
  destruct (accepted_answer_advances Scenario.cfg Scenario.format_player 10
              Scenario.interviewing 1 100 " first " true Scenario.ai_22 _ "Q2"
              Hsession) as (_ & Hsent & _).
  - discriminate.
  - vm_compute. lia.
  - vm_compute. discriminate.
  - reflexivity.
  - reflexivity.
  - exact Hsent.
Defined.

(** ** The audit records *)

Section Records.

Context (cfg : Config) (py_format : string -> string -> Outcome string).

Lemma records_extend_same st st' :
  audit_records st' = audit_records st -> records_extend st st'.
Proof.
  intros Heq user old Hold. exists []. rewrite Heq, app_nil_r. exact Hold.
Qed.

Lemma records_extend_trans st1 st2 st3 :
  records_extend st1 st2 -> records_extend st2 st3 -> records_extend st1 st3.
Proof.
  intros H12 H23 user old Hold.
  destruct (H12 user old Hold) as (added & H2).
  destruct (H23 user _ H2) as (added' & H3).
  exists (added ++ added')%list. rewrite H3, app_assoc. reflexivity.
Qed.

Lemma records_extend_insert st st' user record :
  audit_records st'
  = <[user := (default [] (audit_records st !! user) ++ [record])%list]>
      (audit_records st) ->
  records_extend st st'.
Proof.
  intros Heq other old Hold. rewrite Heq.
  destruct (decide (user = other)) as [-> | Hne].
  - exists [record]. rewrite lookup_insert_eq, Hold. reflexivity.
  - exists []. rewrite lookup_insert_ne by exact Hne. rewrite app_nil_r.
    exact Hold.
Qed.

(** The records after [_complete_audit] on a live session. *)
Lemma complete_audit_records now st key user_id group_id rcon_client
    ai_available ai session :
  audit_sessions st !! key = Some session ->
  audit_records (_complete_audit cfg py_format now st key user_id group_id
                   rcon_client ai_available ai).1
  = <[Py.str user_id :=
        (default [] (audit_records st !! Py.str user_id)
         ++ [completion_record cfg now session user_id group_id
               (_evaluate_answers cfg ai_available ai
                  (s_questions session) (s_answers session))])%list]>
      (audit_records st).
Proof.
  intros Hsession. unfold _complete_audit, complete_audit_begin.
  rewrite Hsession. unfold complete_audit_finish.
  set (score := _evaluate_answers _ _ _ _ _).
  fold (completion_record cfg now session user_id group_id score).
  set (record := completion_record cfg now session user_id group_id score).
  destruct (cancel_timeout_task_frame st key) as (Hr & _ & _ & Hs & _).
  destruct (release_game_id_frame
              (_save_audit_record (cancel_timeout_task st key) record)
              (s_game_id session)) as (Hr' & _ & _ & Hs' & _).
  cbv zeta. rewrite Hs'. simpl. rewrite Hs, Hsession.
  destruct (pass_score cfg <=? score)%Z; simpl; rewrite Hr'; simpl;
    rewrite Hr; reflexivity.
Qed.

Lemma handle_question_timeout_extends now st key user_id group_id
    question_index :
  records_extend st
    (_handle_question_timeout cfg now st key user_id group_id question_index).
Proof.
  destruct (audit_sessions st !! key) as [session|] eqn:Hsession.
  - destruct (decide (length (s_answers session) = question_index))
      as [<- | Hne].
    + eapply records_extend_insert.
      apply (handle_question_timeout_acts cfg now st key user_id group_id
               session Hsession).
    + unfold _handle_question_timeout. rewrite Hsession.
      apply Nat.eqb_neq in Hne. rewrite Hne. apply records_extend_same.
      reflexivity.
  - unfold _handle_question_timeout. rewrite Hsession.
    apply records_extend_same. reflexivity.
Qed.

Lemma handle_answer_command_extends now st user_id group_id command_text
    ai_available ai :
  records_extend st
    (handle_answer_command cfg py_format now st user_id group_id command_text
       ai_available ai).1.1.
Proof.
  unfold handle_answer_command. set (key := session_key user_id group_id).
  destruct (audit_sessions st !! key) as [session|] eqn:Hsession;
    [|apply records_extend_same; reflexivity].
  destruct (String.eqb _ _); [apply records_extend_same; reflexivity|].
  destruct (_ <? _)%nat; [apply records_extend_same; reflexivity|].
  destruct (Py.Qgtb _ _); [apply handle_question_timeout_extends|].
  destruct (cancel_timeout_task_frame st key) as (Hr & _ & _ & Hs & _).
  set (session1 := set_last_activity_time now _).
  set (st2 := set_audit_sessions _ (cancel_timeout_task st key)).
  destruct (_ <=? _)%Z.
  - destruct (_complete_audit _ _ _ _ _ _ _ _ _ _) as [st3 sent] eqn:Hcomplete.
    simpl. change st3 with (st3, sent).1. rewrite <- Hcomplete.
    eapply records_extend_insert.
    rewrite (complete_audit_records now st2 key user_id group_id None
               ai_available ai session1)
      by (subst st2; simpl; apply lookup_insert_eq).
    subst st2. simpl. rewrite Hr. reflexivity.
  - destruct (s_questions _ !! _); simpl; apply records_extend_same;
      simpl; exact Hr.
Qed.

Lemma step_extends st e : records_extend st (step cfg py_format st e).1.
Proof.
  destruct e as [now u g text | now id questions
                | now u g text ai_available ai | now id | now
                | now u g game_id rcon_client]; simpl.
  - pose proof (handle_whitelist_command_state cfg now st u g text) as Hcases.
    destruct (check_cooldown_frame now st u (Py.strip text)) as (Hr & _).
    cbv zeta in Hcases.
    destruct (handle_whitelist_command cfg now st u g text) as [st1 m].
    simpl in *. apply records_extend_same.
    destruct Hcases as [(-> & _) | [(-> & _) | (_ & ->)]];
      [reflexivity | exact Hr | exact Hr].
  - destruct (prepares st !! id) as [p|];
      [|apply records_extend_same; reflexivity].
    destruct (p_pending p); [|apply records_extend_same; reflexivity].
    unfold _prepare_and_send_first_question.
    destruct questions as [[|first_question rest]|]; simpl;
      apply records_extend_same; reflexivity.
  - pose proof (handle_answer_command_extends now st u g text ai_available ai)
      as H.
    destruct (handle_answer_command _ _ _ _ _ _ _ _ _) as [[st1 m] sent].
    exact H.
  - destruct (tasks st !! id) as [t|];
      [|apply records_extend_same; reflexivity].
    destruct (t_status t); try (apply records_extend_same; reflexivity).
    match goal with
    | |- context [if ?ready then _ else _] => destruct ready
    end; [|apply records_extend_same; reflexivity].
    simpl. unfold _check_question_timeout.
    destruct (audit_sessions st !! t_session_key t) as [session|];
      [|apply records_extend_same; reflexivity].
    destruct (negb _); [apply records_extend_same; reflexivity|].
    destruct (negb _); [apply records_extend_same; reflexivity|].
    eapply records_extend_trans; [apply handle_question_timeout_extends|].
    apply records_extend_same. reflexivity.
  - apply records_extend_same. apply cleanup_expired_sessions_frame.
  - unfold handle_admin_add.
    destruct (_add_to_server_whitelist _ _ _ _); simpl;
      apply records_extend_same; reflexivity.
Qed.

(** X15: the audit records are append-only: whatever the loop runs --
    start requests, preparation tasks, answers, timeouts, sweeps, admin
    additions --, the records a requester had before are still there
    afterwards, in the same order, at the head of the requester's
    records. *)
Theorem audit_records_append_only (events : list Event) (st : State) :
  records_extend st (run cfg py_format st events).1.
Proof.
  revert st. induction events as [|e events IH]; intros st; simpl.
  - apply records_extend_same. reflexivity.
  - pose proof (step_extends st e) as Hstep.
    destruct (step cfg py_format st e) as [st1 out1].
    specialize (IH st1).
    destruct (run cfg py_format st1 events) as [st2 out2].
    eapply records_extend_trans; [exact Hstep | exact IH].
Qed.

End Records.

(** ** The last answer *)

Section LastAnswer.

Context (cfg : Config) (py_format : string -> string -> Outcome string).



End LastAnswer.


(** The third answer, scored 22 of 30, completes the interview of
    "Alex". *)
Example final_answer_ex :
  let result :=
    handle_answer_command Scenario.cfg Scenario.format_player 30
      Scenario.two_answered 1 100 " third " true Scenario.ai_22 in
  result.1.2 = None
  /\ map (fun r => (r_answers r, r_score r, r_passed r, r_state r))
       <$> audit_records result.1.1 !! "1"
     = Some [(["first"; "second"; "third"], 22, true, None)]
  /\ w_user_id <$> whitelist result.1.1 !! "Alex" = Some 1
  /\ elements (auditing_game_ids result.1.1) = [].
Proof. vm_compute. repeat split; reflexivity. Qed.

(** ** Adding and removing by an administrator *)

(** X18: the [add] command of an administrator writes the entry of the
    game id in the administrator's name whatever the RCON client does, and
    checks neither the quota nor the lock set; for a game id that was not
    whitelisted, a [remove] of it right after restores the state exactly,
    again whatever the RCON client does, and is never answered with
    not-found. *)
Theorem admin_add_then_remove_restores
    (cfg : Config) (py_format : string -> string -> Outcome string)
    (more : MoreConfig) (now : Q) (st : State) (user_id group_id : Z)
    (game_id : string) (rcon_client rcon_client' : option RconClient) :
  whitelist st !! game_id = None ->
  let added :=
    handle_admin_add cfg py_format now st user_id group_id game_id
      rcon_client in
  let removed :=
    handle_admin_remove cfg py_format more added.1 game_id rcon_client' in
  whitelist added.1 !! game_id
  = Some {| w_user_id := user_id; w_group_id := group_id;
            w_added_by := ByAdmin; w_add_time := now |}
  /\ _get_user_whitelist_count added.1 user_id
     = _get_user_whitelist_count st user_id + 1
  /\ removed.1 = st
  /\ removed.2 <> MsgAdminNotFound.
Proof.
  intros Hentry added removed.
  assert (added.1 = _add_to_whitelist now st game_id user_id group_id true)
    as Hadded.
  { subst added. unfold handle_admin_add.
    destruct (_add_to_server_whitelist _ _ _ _); reflexivity. }
  assert (whitelist added.1 !! game_id
          = Some {| w_user_id := user_id; w_group_id := group_id;
                    w_added_by := ByAdmin; w_add_time := now |}) as Hnew.
  { rewrite Hadded. simpl. apply lookup_insert_eq. }
  split; [exact Hnew|]. split.
  - rewrite Hadded. unfold _add_to_whitelist.
    rewrite user_whitelist_count_insert, user_whitelist_count_delete, Hentry.
    simpl. case_decide; [lia | contradiction].
  - subst removed. unfold handle_admin_remove. rewrite Hnew. simpl.
    split.
    + rewrite Hadded. simpl. rewrite delete_insert_eq.
      rewrite (delete_id _ _ Hentry). destruct st; reflexivity.
    + destruct (_remove_from_server_whitelist _ _ _ _ _); discriminate.
Qed.

Lemma admin_add_then_remove_witness :
  (handle_admin_remove Scenario.cfg Scenario.format_player Bank.more
     (handle_admin_add Scenario.cfg Scenario.format_player 5 init 7 100 "Bob"
        (Some Scenario.broken_rcon)).1
     "Bob" None).1
  = init.
Proof.
  assert (whitelist init !! "Bob" = None) as Hentry
    by (vm_compute; reflexivity).
  destruct (admin_add_then_remove_restores Scenario.cfg Scenario.format_player
              Bank.more 5 init 7 100 "Bob" (Some Scenario.broken_rcon) None
              Hentry) as (_ & _ & Hrestored & _).
  exact Hrestored.
Defined.
